(** * CUDArray: array handles, views and the indexing engine

    A shallow embedding of [cudarray/cudarray.py] (class [CUDArray]) and
    theorems about construction, materialisation, [view], [__getitem__]
    and [__setitem__].

    Python integers are unbounded, so shapes, offsets and slice bounds
    are [Z]; [len] is a [nat].  The class calls three collaborators that
    live outside the module: the [ArrayData] device buffer wrapper,
    [base.copyto] and the constants [base.float_], [base.int_],
    [base.bool_].  They are the fields of the class [Backend] below; every
    theorem holds for every backend.  Calls into the collaborators are
    recorded in a log carried by the state, so that "no device buffer
    operation was issued" is a statement about that log. *)

From stdpp Require Import base list.
From Stdlib Require Import ZArith Lia.

Open Scope Z_scope.

(* ===================================================================== *)
(** ** Data model *)
(* ===================================================================== *)

(** numpy element kinds ([np.dtype]). *)
Inductive dtype : Set :=
| Bool
| Int8 | Int16 | Int32 | Int64
| UInt8 | UInt16 | UInt32 | UInt64
| Float16 | Float32 | Float64.

#[global] Instance dtype_eq_dec : EqDecision dtype.
Proof. solve_decision. Defined.

(** The float kinds among the dtypes. *)
Definition is_float_kind (d : dtype) : bool :=
  match d with
  | Float16 | Float32 | Float64 => true
  | _ => false
  end.

(** A host array ([np.ndarray]): element kind, shape and the items in C
    order. *)
Record ndarray (elem : Type) : Type := mk_ndarray {
  nd_dtype : dtype;
  nd_shape : list Z;
  nd_items : list elem
}.
Arguments mk_ndarray {elem} _ _ _.
Arguments nd_dtype {elem} _.
Arguments nd_shape {elem} _.
Arguments nd_items {elem} _.

(** An [ArrayData] object as the class sees it: the arguments it was
    constructed with ([size], [dtype], [owner], [offset]) and the identity
    of the Python object ([ad_id], the number of [ArrayData] objects built
    before it).  Two handles hold the same buffer reference exactly when
    their [ArrayData] values are equal. *)
#[warnings="-register-all"]
Inductive ArrayData : Set :=
| mk_ArrayData (id : nat) (size : Z) (dt : dtype)
               (owner : option ArrayData) (offset : Z).

Definition ad_id (a : ArrayData) : nat :=
  match a with mk_ArrayData i _ _ _ _ => i end.
Definition ad_size (a : ArrayData) : Z :=
  match a with mk_ArrayData _ s _ _ _ => s end.
Definition ad_dtype (a : ArrayData) : dtype :=
  match a with mk_ArrayData _ _ d _ _ => d end.
Definition ad_owner (a : ArrayData) : option ArrayData :=
  match a with mk_ArrayData _ _ _ o _ => o end.
Definition ad_offset (a : ArrayData) : Z :=
  match a with mk_ArrayData _ _ _ _ off => off end.

(** The attributes of a [CUDArray] instance set by [__init__]. *)
Record CUDArray : Set := mk_CUDArray {
  shape : list Z;
  transposed : bool;
  isbool : bool;
  _data : ArrayData
}.

(** [CUDArray.dtype], [ndim] and [size] (properties). *)
Definition dtype_of (self : CUDArray) : dtype := ad_dtype (_data self).
Definition ndim (self : CUDArray) : nat := length (shape self).

(** [_prod(x)]: [reduce(operator.mul, x, 1)]. *)
Definition _prod (x : list Z) : Z := fold_left Z.mul x 1.

Definition size (self : CUDArray) : Z := _prod (shape self).

(** The [shape] argument of the constructor: a bare integer or a
    sequence. *)
Inductive shape_arg : Set :=
| ShapeInt (n : Z)
| ShapeSeq (s : list Z).

(** [_require_iterable(x)]. *)
Definition _require_iterable (x : shape_arg) : list Z :=
  match x with
  | ShapeSeq s => s
  | ShapeInt n => [n]
  end.

(** One element of an index sequence.  [ISlice start stop step] is
    [slice(start, stop, step)] with [None] for an absent field; [IOther]
    is any object that is neither an integer, a slice nor [Ellipsis]. *)
Inductive index : Set :=
| IInt (n : Z)
| ISlice (start stop step : option Z)
| IEllipsis
| IOther.

#[global] Instance index_eq_dec : EqDecision index.
Proof. solve_decision. Defined.

(** [slice(None)], the full-range slice. *)
Definition full_slice : index := ISlice None None None.

(** The kind of Python sequence that carries the indices: the subscript
    syntax [a[i, j]] passes a tuple, a caller may pass a list. *)
Inductive seq_kind : Set := TupleSeq | ListSeq.

(** The argument of [__getitem__]: a single object that is not a
    sequence, or a sequence of index elements. *)
Inductive index_expr : Set :=
| Single (x : index)
| Sequence (kind : seq_kind) (items : list index).

(** Exceptions the class can raise.  [TypeError] comes from the
    interpreter ([len] of a non-sequence, tuple + list), [RuntimeError]
    is the interpreter's "maximum recursion depth exceeded". *)
Inductive exn : Set :=
| IndexError | NotImplementedError | TypeError | RuntimeError.

Inductive outcome (A : Type) : Type :=
| Ok (a : A)
| Raise (e : exn).
Arguments Ok {A} _.
Arguments Raise {A} _.

(* ===================================================================== *)
(** ** The collaborators *)
(* ===================================================================== *)

(** What the class needs from outside the module.  [float_], [int_] and
    [bool_] are [base.float_], [base.int_], [base.bool_]; [cast] is the
    per-element conversion of [np.require] and [ndarray.astype];
    [dev_construct] is the effect of [ArrayData(...)] on device memory
    (allocation, upload of host data; nothing new for a view);
    [dev_to_numpy] is what [ArrayData.to_numpy] reads back, and
    [dev_copyto] is [base.copyto]. *)
Class Backend : Type := {
  elem : Type;
  source : Type;
  device : Type;
  float_ : dtype;
  int_ : dtype;
  bool_ : dtype;
  cast : dtype -> dtype -> elem -> elem;
  uninit : elem;
  dev_construct : ArrayData -> option (ndarray elem) -> device -> device;
  dev_to_numpy : ArrayData -> list Z -> device -> list elem;
  dev_copyto : CUDArray -> source -> device -> outcome unit * device
}.

Section CUDArray.
Context `{B : Backend}.

(** Calls into the collaborators. *)
Inductive event : Type :=
| EvArrayData (ad : ArrayData) (np_data : option (ndarray elem))
| EvToNumpy (ad : ArrayData)
| EvCopyto (dst : CUDArray) (src : source).

(** An [EvArrayData] with no owner allocates storage; with an owner it
    is a zero-copy view. *)
Definition is_alloc (e : event) : bool :=
  match e with
  | EvArrayData ad _ => match ad_owner ad with None => true | Some _ => false end
  | _ => false
  end.

(** The state threaded through the class: device memory, the number of
    [ArrayData] objects built so far, and the log of calls. *)
Record world : Type := mk_world {
  dev : device;
  objs : nat;
  log : list event
}.

(** Computations that read and change the world and may raise. *)
Definition M (A : Type) : Type := world -> outcome A * world.

Definition ret {A} (a : A) : M A := fun w => (Ok a, w).
Definition raise {A} (e : exn) : M A := fun w => (Raise e, w).
Definition bind {A C} (m : M A) (k : A -> M C) : M C :=
  fun w => match m w with
           | (Ok a, w') => k a w'
           | (Raise e, w') => (Raise e, w')
           end.

Notation "x <- c1 ;; c2" := (bind c1 (fun x => c2))
  (at level 100, c1 at next level, right associativity).

(** [ArrayData(size, dtype, np_data, owner=owner, offset=offset)]. *)
Definition ArrayData_new (sz : Z) (dt : dtype) (np_data : option (ndarray elem))
    (owner : option ArrayData) (offset : Z) : M ArrayData :=
  fun w =>
    let ad := mk_ArrayData (objs w) sz dt owner offset in
    (Ok ad, {| dev := dev_construct ad np_data (dev w);
               objs := S (objs w);
               log := log w ++ [EvArrayData ad np_data] |}).

(** [ad.to_numpy(np_array)]: fills the host array in place; its dtype and
    shape stay. *)
Definition ArrayData_to_numpy (ad : ArrayData) (np_array : ndarray elem)
    : M (ndarray elem) :=
  fun w =>
    (Ok (mk_ndarray (nd_dtype np_array) (nd_shape np_array)
                    (dev_to_numpy ad (nd_shape np_array) (dev w))),
     {| dev := dev w; objs := objs w; log := log w ++ [EvToNumpy ad] |}).

(** [base.copyto(dst, src)]. *)
Definition base_copyto (dst : CUDArray) (src : source) : M unit :=
  fun w =>
    let '(r, d) := dev_copyto dst src (dev w) in
    (r, {| dev := d; objs := objs w; log := log w ++ [EvCopyto dst src] |}).

(** [a.astype(dt)] and [np.require(a, dtype=dt, requirements='C')]. *)
Definition astype (a : ndarray elem) (dt : dtype) : ndarray elem :=
  mk_ndarray dt (nd_shape a) (map (cast (nd_dtype a) dt) (nd_items a)).
Definition np_require (a : ndarray elem) (dt : dtype) : ndarray elem :=
  astype a dt.

(** [np.empty(shape, dtype=dt)]. *)
Definition np_empty (s : list Z) (dt : dtype) : ndarray elem :=
  mk_ndarray dt s (replicate (Z.to_nat (_prod s)) uninit).

(* ===================================================================== *)
(** ** Construction, materialisation, view *)
(* ===================================================================== *)

(** Lines 17-21 of [__init__]: the dtype when none is given. *)
Definition infer_dtype (dt : option dtype) (np_data : option (ndarray elem))
    : dtype :=
  match dt with
  | Some d => d
  | None => match np_data with
            | None => float_
            | Some a => nd_dtype a
            end
  end.

(** Lines 22-28 of [__init__]: the stored dtype and the [isbool] flag. *)
Definition normalize_dtype (d : dtype) : dtype * bool :=
  if decide (d = Float64) then (float_, false)
  else if decide (d = Int64) then (int_, false)
  else if decide (d = Bool) then (bool_, true)
  else (d, false).

(** [CUDArray.__init__(shape, dtype, np_data, array_data)]. *)
Definition CUDArray_init (shp : shape_arg) (dt : option dtype)
    (np_data : option (ndarray elem)) (array_data : option ArrayData)
    : M CUDArray :=
  let shp := _require_iterable shp in
  let d := infer_dtype dt np_data in
  let '(d, flag) := normalize_dtype d in
  let np_data := option_map (fun a => np_require a d) np_data in
  match array_data with
  | None =>
      ad <- ArrayData_new (_prod shp) d np_data None 0 ;;
      ret (mk_CUDArray shp false flag ad)
  | Some ad => ret (mk_CUDArray shp false flag ad)
  end.

(** [CUDArray.__array__()]. *)
Definition __array__ (self : CUDArray) : M (ndarray elem) :=
  np_array <- ArrayData_to_numpy (_data self)
                (np_empty (shape self) (dtype_of self)) ;;
  ret (if isbool self then astype np_array Bool else np_array).

(** [CUDArray.view()]. *)
Definition view (self : CUDArray) : M CUDArray :=
  CUDArray_init (ShapeSeq (shape self)) (Some (dtype_of self)) None
                (Some (_data self)).

(* ===================================================================== *)
(** ** Indexing *)
(* ===================================================================== *)

(** The variables the loop of [__getitem__] updates. *)
Record loop_state : Set := mk_loop_state {
  view_shape : list Z;
  rest_must_be_contiguous : bool;
  offset : Z
}.

(** How one iteration of the loop ends: it falls through to the next
    dimension, raises, or leaves through [return self[indices]] with the
    rewritten index list. *)
Inductive flow : Set :=
| Continue (st : loop_state)
| Throw (e : exn)
| Restart (indices : list index).

(** Lines 199-207: the tail of the loop body, after [start], [stop] and
    [append_dim] are known. *)
Definition loop_tail (dim : Z) (append_dim : bool) (start stop : Z)
    (st : loop_state) : flow :=
  let view_dim := stop - start in
  let offset' := offset st * dim + start in
  let view_shape' :=
    if append_dim then view_shape st ++ [view_dim] else view_shape st in
  if rest_must_be_contiguous st && (1 <? view_dim) && (view_dim <? dim)
  then Throw NotImplementedError
  else Continue (mk_loop_state view_shape'
                   (if 1 <? view_dim then true else rest_must_be_contiguous st)
                   offset').

(** Lines 174-207: one iteration, for dimension [i] of extent [dim].
    [indices !! i] is [Some] exactly when [i < len(indices)]. *)
Definition loop_body (nd : nat) (kind : seq_kind) (indices : list index)
    (i : nat) (dim : Z) (st : loop_state) : flow :=
  match indices !! i with
  | None => loop_tail dim true 0 dim st
  | Some (IInt idx) => loop_tail dim false idx (idx + 1) st
  | Some (ISlice istart istop istep) =>
      let start := default 0 istart in
      let stop := default dim istop in
      match istep with
      | Some _ => Throw NotImplementedError
      | None => loop_tail dim true start stop st
      end
  | Some IEllipsis =>
      let diff := (nd - length indices)%nat in
      match kind with
      | TupleSeq => Throw TypeError
      | ListSeq =>
          Restart (take i indices ++ replicate diff full_slice ++ drop i indices)
      end
  | Some IOther => Throw IndexError
  end.

(** [for i, dim in enumerate(self.shape)], from position [i] on. *)
Fixpoint walk (nd : nat) (kind : seq_kind) (indices : list index)
    (i : nat) (dims : list Z) (st : loop_state) : flow :=
  match dims with
  | [] => Continue st
  | dim :: dims' =>
      match loop_body nd kind indices i dim st with
      | Continue st' => walk nd kind indices (S i) dims' st'
      | other => other
      end
  end.

(** Lines 213-216 and 161-164: build the view. *)
Definition make_view (self : CUDArray) (vshape : list Z) (off : Z)
    : M CUDArray :=
  let view_size := _prod vshape in
  data_view <- ArrayData_new view_size (dtype_of self) None
                 (Some (_data self)) off ;;
  CUDArray_init (ShapeSeq vshape) (Some (dtype_of self)) None (Some data_view).

(** [CUDArray.__getitem__(indices)].  [depth] is the number of nested
    calls the interpreter still allows; when it is used up the call
    raises [RuntimeError]. *)
Fixpoint getitem (depth : nat) (self : CUDArray) (indices : index_expr)
    : M CUDArray :=
  match depth with
  | O => raise RuntimeError
  | S depth' =>
      match indices with
      | Single (IInt i) =>
          let vshape := tail (shape self) in
          make_view self vshape (i * _prod vshape)
      | Single _ => raise TypeError
      | Sequence kind items =>
          if (length (shape self) <? length items)%nat
          then raise IndexError
          else
            match walk (ndim self) kind items 0 (shape self)
                       (mk_loop_state [] false 0) with
            | Continue st => make_view self (view_shape st) (offset st)
            | Throw e => raise e
            | Restart items' => getitem depth' self (Sequence ListSeq items')
            end
      end
  end.

(** [CUDArray.__setitem__(indices, c)]. *)
Definition setitem (depth : nat) (self : CUDArray) (indices : index_expr)
    (c : source) : M unit :=
  v <- getitem depth self indices ;;
  base_copyto v c.

(** The view [make_view] builds in world [w]: the new [ArrayData] object,
    the handle around it and the world afterwards. *)
Definition view_data (self : CUDArray) (vshape : list Z) (off : Z) (w : world)
    : ArrayData :=
  mk_ArrayData (objs w) (_prod vshape) (dtype_of self) (Some (_data self)) off.

Definition view_handle (self : CUDArray) (vshape : list Z) (off : Z)
    (w : world) : CUDArray :=
  mk_CUDArray vshape false (snd (normalize_dtype (dtype_of self)))
              (view_data self vshape off w).

Definition view_world (self : CUDArray) (vshape : list Z) (off : Z)
    (w : world) : world :=
  {| dev := dev_construct (view_data self vshape off w) None (dev w);
     objs := S (objs w);
     log := log w ++ [EvArrayData (view_data self vshape off w) None] |}.

End CUDArray.

Arguments ret {B A} _ _.
Arguments raise {B A} _ _.
Arguments bind {B A C} _ _ _.

(* ===================================================================== *)
(** ** The walk read dimension by dimension

    The quantities of section 4.2 of the specification, written per
    position [j] of the shape instead of as running variables.  [bounds],
    [retained], [spec_offset] and [spec_shape] follow the specification's
    words and are compared with [walk]; [flag_before] and [violates] are
    the test of lines 203-207 read per position; [claimed_violation] is
    the contiguity rule as the specification words it. *)
(* ===================================================================== *)

(** [start] and [stop] of a dimension of extent [dim]: the full range
    when no index is supplied, [idx, idx+1] for an integer, the slice's
    bounds with [0] and [dim] for absent ones. *)
Definition bounds (dim : Z) (o : option index) : Z * Z :=
  match o with
  | Some (IInt idx) => (idx, idx + 1)
  | Some (ISlice istart istop _) => (default 0 istart, default dim istop)
  | _ => (0, dim)
  end.

(** An integer index drops its dimension; everything else keeps it. *)
Definition retained (o : option index) : bool :=
  match o with
  | Some (IInt _) => false
  | _ => true
  end.

(** The elements the loop processes down to the contiguity check: no
    index, an integer, or a slice without a step. *)
Definition plain (o : option index) : bool :=
  match o with
  | None | Some (IInt _) | Some (ISlice _ _ None) => true
  | _ => false
  end.

(** A slice that carries a step, whatever its value. *)
Definition stepped (o : option index) : bool :=
  match o with
  | Some (ISlice _ _ (Some _)) => true
  | _ => false
  end.

Definition is_slice (o : option index) : bool :=
  match o with
  | Some (ISlice _ _ _) => true
  | _ => false
  end.

Section Positions.
Variables (shp : list Z) (l : list index).

Definition dim_at (j : nat) : Z := nth j shp 0.
Definition start_at (j : nat) : Z := fst (bounds (dim_at j) (l !! j)).
Definition stop_at (j : nat) : Z := snd (bounds (dim_at j) (l !! j)).
Definition view_dim_at (j : nat) : Z := stop_at j - start_at j.

(** Some dimension before [j] has more than one element selected. *)
Definition flag_before (j : nat) : bool :=
  existsb (fun i => 1 <? view_dim_at i) (seq 0 j).

(** The contiguity check fires at dimension [j]. *)
Definition violates (j : nat) : bool :=
  flag_before j && (1 <? view_dim_at j) && (view_dim_at j <? dim_at j).

(** The walk cannot pass dimension [j]. *)
Definition offending (j : nat) : bool :=
  negb (plain (l !! j)) || violates j.

(** The walk passes every dimension before [j]. *)
Definition clean (j : nat) : bool :=
  forallb (fun i => negb (offending i)) (seq 0 j).

(** [offset = offset*dim + start], accumulated over the first [j]
    dimensions. *)
Definition spec_offset (j : nat) : Z :=
  fold_left (fun off i => off * dim_at i + start_at i) (seq 0 j) 0.

(** The [view_dim] of the retained dimensions among the first [j], in
    order. *)
Definition spec_shape (j : nat) : list Z :=
  flat_map (fun i => if retained (l !! i) then [view_dim_at i] else [])
           (seq 0 j).

(** The loop variables after [j] dimensions. *)
Definition spec_state (j : nat) : loop_state :=
  mk_loop_state (spec_shape j) (flag_before j) (spec_offset j).

(** The rule as the specification words it: some earlier dimension is
    properly partially sliced ([1 < view_dim < dim]) and dimension [j] is
    indexed by a slice with [view_dim <> dim]. *)
Definition claimed_violation (j : nat) : bool :=
  existsb (fun i => (1 <? view_dim_at i) && (view_dim_at i <? dim_at i))
          (seq 0 j)
  && is_slice (l !! j) && negb (view_dim_at j =? dim_at j).

End Positions.

(** How the walk leaves the loop at an offending dimension [j]. *)
Definition stop_flow (nd : nat) (kind : seq_kind) (l : list index) (j : nat)
    : flow :=
  match l !! j with
  | Some IOther => Throw IndexError
  | Some IEllipsis =>
      match kind with
      | TupleSeq => Throw TypeError
      | ListSeq =>
          Restart (take j l ++ replicate (nd - length l)%nat full_slice
                   ++ drop j l)
      end
  | _ => Throw NotImplementedError
  end.

(** The first dimension the walk cannot pass. *)
Definition first_offending (shp : list Z) (l : list index) (j : nat) : Prop :=
  (j < length shp)%nat /\ clean shp l j = true /\ offending shp l j = true.

(** The index sequence in which the ellipsis at slot [p] is replaced by
    [n] full-range slices. *)
Definition expand_ellipsis (l : list index) (p n : nat) : list index :=
  take p l ++ replicate n full_slice ++ drop (S p) l.

(** A backend with 32-bit canonical kinds, integers for elements and a
    device whose memory is one list of cells per [ArrayData] identity;
    used to run the definitions on concrete inputs. *)
#[local] Instance ref_backend : Backend := {|
  elem := Z;
  source := Z;
  device := list (nat * list Z);
  float_ := Float32;
  int_ := Int32;
  bool_ := Int32;
  cast := fun _ t x => if decide (t = Bool) then (if decide (x = 0) then 0 else 1) else x;
  uninit := 0;
  dev_construct := fun ad np d =>
    match ad_owner ad, np with
    | None, Some a => (ad_id ad, nd_items a) :: d
    | None, None => (ad_id ad, replicate (Z.to_nat (ad_size ad)) 0) :: d
    | Some _, _ => d
    end;
  dev_to_numpy := fun ad s d =>
    match find (fun p => Nat.eqb (fst p) (ad_id ad)) d with
    | Some p => take (Z.to_nat (_prod s)) (snd p)
    | None => replicate (Z.to_nat (_prod s)) 0
    end;
  dev_copyto := fun _ _ d => (Ok tt, d)
|}.

(** The world before any object exists. *)
Definition w0 : world := mk_world [] 0 [].

(** A float handle of shape (4,5,6) that owns its buffer, and the world
    in which it has just been constructed from [w0]. *)
Definition h456 : CUDArray :=
  mk_CUDArray [4; 5; 6] false false (mk_ArrayData 0 120 Float32 None 0).

Definition w1 : world :=
  snd (CUDArray_init (ShapeSeq [4; 5; 6]) None None None w0).

Definition sl (a b : Z) : index := ISlice (Some a) (Some b) None.

(** A boolean handle of three items on the reference backend. *)
Definition hbool : CUDArray :=
  mk_CUDArray [3] false true (mk_ArrayData 0 3 Int32 None 0).

(** Index sequences made of integers and slices without a step. *)
Definition all_plain (l : list index) : Prop :=
  Forall (fun x => plain (Some x) = true) l.

(** A slice whose step is given and differs from 1, and an element that
    is neither an integer, a slice nor an ellipsis: the two conditions
    the specification's error list names. *)
Definition nonunit_step (x : index) : bool :=
  match x with
  | ISlice _ _ (Some s) => negb (s =? 1)
  | _ => false
  end.

Definition invalid_element (x : index) : bool :=
  match x with
  | IOther => true
  | _ => false
  end.

(* ===================================================================== *)
(** ** The rest of the class *)
(* ===================================================================== *)

(** [CUDArray.__len__()]: [self.shape[0]].  Subscripting an empty shape
    raises [IndexError]. *)
Definition __len__ (self : CUDArray) : outcome Z :=
  match shape self with
  | d :: _ => Ok d
  | [] => Raise IndexError
  end.

(** The row-major linear index of the element [idxs] of an array of
    extents [dims]: the sum of [idx_k] times the product of the extents
    after [k]. *)
Fixpoint ravel (dims idxs : list Z) : Z :=
  match dims, idxs with
  | _ :: ds, i :: idxs' => i * _prod ds + ravel ds idxs'
  | _, _ => 0
  end.

Definition is_int (x : index) : bool :=
  match x with
  | IInt _ => true
  | _ => false
  end.

(** How many elements of an index sequence are integers. *)
Definition count_ints (l : list index) : nat := length (List.filter is_int l).

(** Each of the first [n] dimensions selects a non-empty range inside
    its extent: [0 <= start < stop <= dim]. *)
Definition in_range (shp : list Z) (l : list index) (n : nat) : Prop :=
  forall i, (i < n)%nat ->
    0 <= start_at shp l i /\ start_at shp l i < stop_at shp l i /\
    stop_at shp l i <= dim_at shp i.

(** The loop variables with the running offset moved by [c]. *)
Definition add_offset (c : Z) (st : loop_state) : loop_state :=
  mk_loop_state (view_shape st) (rest_must_be_contiguous st) (offset st + c).

(** The length of the owner chain of a buffer: 0 for a buffer that owns
    its storage. *)
Fixpoint ad_depth (a : ArrayData) : nat :=
  match a with
  | mk_ArrayData _ _ _ None _ => 0
  | mk_ArrayData _ _ _ (Some o) _ => S (ad_depth o)
  end.

(** The handles the class itself produces: constructed without a
    caller-supplied buffer, or obtained from such a handle by [view()]
    and [__getitem__]. *)
Inductive built `{B : Backend} : CUDArray -> Prop :=
| built_fresh (shp : shape_arg) (dt : option dtype)
    (np_data : option (ndarray elem)) (w w' : world) (h : CUDArray) :
    CUDArray_init shp dt np_data None w = (Ok h, w') -> built h
| built_view (self h : CUDArray) (w w' : world) :
    built self -> view self w = (Ok h, w') -> built h
| built_getitem (self h : CUDArray) (depth : nat) (idx : index_expr)
    (w w' : world) :
    built self -> getitem depth self idx w = (Ok h, w') -> built h.

(* ===================================================================== *)
(** ** The walk and its position-wise reading *)
(* ===================================================================== *)

(** [h456] is what the constructor returns for shape (4,5,6) in the
    empty world, and [w1] the world it leaves. *)
Example h456_constructed :
  CUDArray_init (ShapeSeq [4; 5; 6]) None None None w0 = (Ok h456, w1).
Proof. reflexivity. Qed.

Section WalkLemmas.
Variables (nd : nat) (kind : seq_kind) (l : list index).

Lemma walk_app (d1 d2 : list Z) : forall (i : nat) (st : loop_state),
  walk nd kind l i (d1 ++ d2) st =
  match walk nd kind l i d1 st with
  | Continue st' => walk nd kind l (i + length d1) d2 st'
  | other => other
  end.
Proof.
  induction d1 as [|d d1 IH]; intros i st; simpl.
  - by rewrite Nat.add_0_r.
  - destruct (loop_body nd kind l i d st); try done.
    rewrite IH. by replace (S i + length d1)%nat with (i + S (length d1))%nat by lia.
Qed.

Lemma loop_body_plain (i : nat) (dim : Z) (st : loop_state) :
  plain (l !! i) = true ->
  loop_body nd kind l i dim st =
  loop_tail dim (retained (l !! i)) (fst (bounds dim (l !! i)))
            (snd (bounds dim (l !! i))) st.
Proof.
  unfold loop_body. destruct (l !! i) as [[n|s e [st'|]| |]|]; simpl; try done.
Qed.

Lemma loop_body_not_plain (i : nat) (dim : Z) (st : loop_state) :
  plain (l !! i) = false ->
  loop_body nd kind l i dim st = stop_flow nd kind l i.
Proof.
  unfold loop_body, stop_flow.
  destruct (l !! i) as [[n|s e [st'|]| |]|]; simpl; try done.
Qed.

Variable shp : list Z.

Lemma flag_before_S (j : nat) :
  flag_before shp l (S j) = flag_before shp l j || (1 <? view_dim_at shp l j).
Proof.
  unfold flag_before. rewrite seq_S, existsb_app. simpl.
  by rewrite orb_false_r.
Qed.

Lemma spec_offset_S (j : nat) :
  spec_offset shp l (S j) =
  spec_offset shp l j * dim_at shp j + start_at shp l j.
Proof. unfold spec_offset. by rewrite seq_S, fold_left_app. Qed.

Lemma spec_shape_S (j : nat) :
  spec_shape shp l (S j) =
  spec_shape shp l j ++
  (if retained (l !! j) then [view_dim_at shp l j] else []).
Proof.
  unfold spec_shape. rewrite seq_S, flat_map_app. simpl.
  by rewrite app_nil_r.
Qed.

Lemma clean_S (j : nat) :
  clean shp l (S j) = clean shp l j && negb (offending shp l j).
Proof.
  unfold clean. rewrite seq_S, forallb_app. simpl.
  by rewrite andb_true_r.
Qed.

Lemma clean_le (i j : nat) :
  (i <= j)%nat -> clean shp l j = true -> clean shp l i = true.
Proof.
  induction 1 as [|j Hle IH]; [done|].
  rewrite clean_S. intros [H _]%andb_true_iff. auto.
Qed.

Lemma clean_lt_offending (i j : nat) :
  (i < j)%nat -> clean shp l j = true -> offending shp l i = false.
Proof.
  intros Hlt Hc. apply (clean_le (S i)) in Hc; [|lia].
  rewrite clean_S in Hc. apply andb_true_iff in Hc as [_ Hc].
  by destruct (offending shp l i).
Qed.

(** One plain step from the position-wise state. *)
Lemma loop_tail_spec (j : nat) :
  loop_tail (dim_at shp j) (retained (l !! j)) (start_at shp l j)
            (stop_at shp l j) (spec_state shp l j) =
  if violates shp l j then Throw NotImplementedError
  else Continue (spec_state shp l (S j)).
Proof.
  unfold loop_tail, spec_state, violates. simpl.
  fold (view_dim_at shp l j).
  destruct (flag_before shp l j && (1 <? view_dim_at shp l j)
            && (view_dim_at shp l j <? dim_at shp j)) eqn:E; [done|].
  rewrite flag_before_S, spec_offset_S, spec_shape_S.
  f_equal. f_equal.
  - by destruct (retained (l !! j)); rewrite ?app_nil_r.
  - destruct (1 <? view_dim_at shp l j), (flag_before shp l j); done.
Qed.

Lemma loop_body_spec (j : nat) :
  loop_body nd kind l j (dim_at shp j) (spec_state shp l j) =
  if offending shp l j then
    (if plain (l !! j) then Throw NotImplementedError
     else stop_flow nd kind l j)
  else Continue (spec_state shp l (S j)).
Proof.
  unfold offending. destruct (plain (l !! j)) eqn:Hp; simpl.
  - rewrite loop_body_plain by done. apply loop_tail_spec.
  - by apply loop_body_not_plain.
Qed.

(** The walk over a clean prefix ends in the position-wise state. *)
Lemma walk_clean_prefix (j : nat) :
  (j <= length shp)%nat -> clean shp l j = true ->
  walk nd kind l 0 (take j shp) (mk_loop_state [] false 0) =
  Continue (spec_state shp l j).
Proof.
  induction j as [|j IH]; intros Hj Hc.
  - by rewrite take_0.
  - rewrite clean_S in Hc. apply andb_true_iff in Hc as [Hc Ho].
    destruct (lookup_lt_is_Some_2 shp j) as [d Hd]; [lia|].
    rewrite (take_S_r _ _ _ Hd), walk_app, IH by (done || lia).
    rewrite length_take_le by lia. simpl.
    assert (d = dim_at shp j) as ->.
    { unfold dim_at. by rewrite (nth_lookup_Some _ _ _ _ Hd). }
    rewrite loop_body_spec.
    by destruct (offending shp l j).
Qed.

Lemma walk_clean :
  clean shp l (length shp) = true ->
  walk nd kind l 0 shp (mk_loop_state [] false 0) =
  Continue (spec_state shp l (length shp)).
Proof.
  intros Hc. rewrite <- (walk_clean_prefix (length shp)) by done.
  by rewrite firstn_all.
Qed.

(** The walk stops at the first offending dimension. *)
Lemma walk_first_offending (j : nat) :
  first_offending shp l j ->
  walk nd kind l 0 shp (mk_loop_state [] false 0) =
  if plain (l !! j) then Throw NotImplementedError
  else stop_flow nd kind l j.
Proof.
  intros (Hj & Hc & Ho).
  destruct (lookup_lt_is_Some_2 shp j) as [d Hd]; [lia|].
  rewrite <- (take_drop_middle shp j d Hd) at 1.
  rewrite walk_app, walk_clean_prefix by (done || lia).
  rewrite length_take_le by lia. simpl.
  assert (d = dim_at shp j) as ->.
  { unfold dim_at. by rewrite (nth_lookup_Some _ _ _ _ Hd). }
  rewrite loop_body_spec, Ho.
  destruct (plain (l !! j)); [done|].
  unfold stop_flow. by destruct (l !! j) as [[| | |]|], kind.
Qed.

(** Either the whole shape is clean or there is a first offending
    dimension. *)
Lemma clean_or_first_offending (n : nat) :
  clean shp l n = true \/
  exists j, (j < n)%nat /\ clean shp l j = true /\ offending shp l j = true.
Proof.
  induction n as [|n [IH|(j & Hj & Hc & Ho)]].
  - by left.
  - rewrite clean_S. destruct (offending shp l n) eqn:Ho.
    + right. exists n. auto.
    + left. by rewrite IH.
  - right. exists j. split; [lia|done].
Qed.

Lemma first_offending_unique (i j : nat) :
  first_offending shp l i -> first_offending shp l j -> i = j.
Proof.
  intros (_ & Hci & Hoi) (_ & Hcj & Hoj).
  destruct (Nat.lt_trichotomy i j) as [H|[H|H]]; [|done|].
  - rewrite (clean_lt_offending i j H Hcj) in Hoi. done.
  - rewrite (clean_lt_offending j i H Hci) in Hoj. done.
Qed.

End WalkLemmas.

(* ===================================================================== *)
(** ** [__getitem__] on an index sequence *)
(* ===================================================================== *)

Section GetItem.
Context `{B : Backend}.

Lemma normalize_dtype_flag (d : dtype) :
  snd (normalize_dtype d) = bool_decide (d = Bool).
Proof.
  unfold normalize_dtype.
  repeat case_decide; subst; simpl; try done.
Qed.

Lemma CUDArray_init_borrow (shp : list Z) (d : dtype) (ad : ArrayData)
    (w : world) :
  CUDArray_init (ShapeSeq shp) (Some d) None (Some ad) w =
  (Ok (mk_CUDArray shp false (snd (normalize_dtype d)) ad), w).
Proof.
  unfold CUDArray_init. simpl. by destruct (normalize_dtype d).
Qed.

Lemma make_view_eq (self : CUDArray) (vshape : list Z) (off : Z) (w : world) :
  make_view self vshape off w =
  (Ok (view_handle self vshape off w), view_world self vshape off w).
Proof.
  unfold make_view, bind, ArrayData_new. simpl.
  by rewrite CUDArray_init_borrow.
Qed.

Variable self : CUDArray.

Lemma getitem_too_long (d : nat) (k : seq_kind) (l : list index) (w : world) :
  (length (shape self) < length l)%nat ->
  getitem (S d) self (Sequence k l) w = (Raise IndexError, w).
Proof.
  intros H. simpl. apply Nat.ltb_lt in H. by rewrite H.
Qed.

Lemma getitem_clean (d : nat) (k : seq_kind) (l : list index) (w : world) :
  (length l <= length (shape self))%nat ->
  clean (shape self) l (length (shape self)) = true ->
  getitem (S d) self (Sequence k l) w =
  make_view self (spec_shape (shape self) l (length (shape self)))
            (spec_offset (shape self) l (length (shape self))) w.
Proof.
  intros Hl Hc. simpl.
  destruct (Nat.ltb_spec (length (shape self)) (length l)); [lia|].
  by rewrite walk_clean.
Qed.

Lemma getitem_first_offending (d : nat) (k : seq_kind) (l : list index)
    (w : world) (j : nat) :
  (length l <= length (shape self))%nat ->
  first_offending (shape self) l j ->
  getitem (S d) self (Sequence k l) w =
  match walk (ndim self) k l 0 (shape self) (mk_loop_state [] false 0) with
  | Continue st => make_view self (view_shape st) (offset st) w
  | Throw e => (Raise e, w)
  | Restart l' => getitem d self (Sequence ListSeq l') w
  end.
Proof.
  intros Hl _. simpl.
  destruct (Nat.ltb_spec (length (shape self)) (length l)); [lia|].
  by destruct (walk _ _ _ _ _ _).
Qed.

(** At a first offending dimension that is not an ellipsis the call
    raises, and the world is untouched. *)
Lemma getitem_stops (d : nat) (k : seq_kind) (l : list index) (w : world)
    (j : nat) :
  (length l <= length (shape self))%nat ->
  first_offending (shape self) l j ->
  l !! j <> Some IEllipsis ->
  getitem (S d) self (Sequence k l) w =
  (Raise (if bool_decide (l !! j = Some IOther) then IndexError
          else NotImplementedError), w).
Proof.
  intros Hl Hf Hne.
  rewrite (getitem_first_offending d k l w j Hl Hf).
  rewrite (walk_first_offending _ _ _ _ j Hf).
  unfold stop_flow.
  destruct (l !! j) as [[n|s e [st|]| |]|]; simpl; try done.
Qed.

Lemma getitem_stops_tuple_ellipsis (d : nat) (l : list index) (w : world)
    (j : nat) :
  (length l <= length (shape self))%nat ->
  first_offending (shape self) l j ->
  l !! j = Some IEllipsis ->
  getitem (S d) self (Sequence TupleSeq l) w = (Raise TypeError, w).
Proof.
  intros Hl Hf He.
  rewrite (getitem_first_offending d _ l w j Hl Hf).
  rewrite (walk_first_offending _ _ _ _ j Hf).
  unfold stop_flow. by rewrite He.
Qed.

Lemma getitem_restarts (d : nat) (l : list index) (w : world) (j : nat) :
  (length l <= length (shape self))%nat ->
  first_offending (shape self) l j ->
  l !! j = Some IEllipsis ->
  getitem (S d) self (Sequence ListSeq l) w =
  getitem d self
    (Sequence ListSeq
       (take j l ++ replicate (ndim self - length l)%nat full_slice
        ++ drop j l)) w.
Proof.
  intros Hl Hf He.
  rewrite (getitem_first_offending d _ l w j Hl Hf).
  rewrite (walk_first_offending _ _ _ _ j Hf).
  unfold stop_flow. by rewrite He.
Qed.

End GetItem.

(* ===================================================================== *)
(** ** The ellipsis branch *)
(* ===================================================================== *)

Section Agree.
Variables (shp : list Z) (l l' : list index) (n : nat).
Hypothesis agree : forall i, (i < n)%nat -> l !! i = l' !! i.

Lemma view_dim_at_agree (i : nat) :
  (i < n)%nat -> view_dim_at shp l i = view_dim_at shp l' i.
Proof.
  intros Hi. unfold view_dim_at, stop_at, start_at. by rewrite (agree i Hi).
Qed.

Lemma flag_before_agree (j : nat) :
  (j <= n)%nat -> flag_before shp l j = flag_before shp l' j.
Proof.
  induction j as [|j IH]; intros Hj; [done|].
  rewrite !flag_before_S, IH, view_dim_at_agree by lia. done.
Qed.

Lemma offending_agree (i : nat) :
  (i < n)%nat -> offending shp l i = offending shp l' i.
Proof.
  intros Hi. unfold offending, violates.
  rewrite flag_before_agree, view_dim_at_agree, (agree i Hi) by lia. done.
Qed.

Lemma clean_agree (j : nat) :
  (j <= n)%nat -> clean shp l j = clean shp l' j.
Proof.
  induction j as [|j IH]; intros Hj; [done|].
  rewrite !clean_S, IH, offending_agree by lia. done.
Qed.

End Agree.

Section Restart.
Variables (shp : list Z) (l : list index) (j : nat).
Hypothesis len_le : (length l <= length shp)%nat.
Hypothesis first : first_offending shp l j.
Hypothesis ellipsis : l !! j = Some IEllipsis.

(** The list line 193 builds. *)
Local Abbreviation diff := (length shp - length l)%nat.
Local Abbreviation l' := (take j l ++ replicate diff full_slice ++ drop j l).

Lemma restart_length : length l' = length shp.
Proof.
  pose proof (lookup_lt_Some _ _ _ ellipsis) as Hj.
  rewrite !length_app, length_take_le, length_replicate, length_drop by lia.
  lia.
Qed.

Lemma restart_lookup_before (i : nat) : (i < j)%nat -> l !! i = l' !! i.
Proof.
  intros Hi. pose proof (lookup_lt_Some _ _ _ ellipsis) as Hj.
  rewrite lookup_app_l by (rewrite length_take_le; lia).
  by rewrite lookup_take_lt.
Qed.

Lemma restart_lookup_fill (k : nat) :
  (k < diff)%nat -> l' !! (j + k)%nat = Some full_slice.
Proof.
  intros Hk. pose proof (lookup_lt_Some _ _ _ ellipsis) as Hj.
  rewrite lookup_app_r by (rewrite length_take_le; lia).
  rewrite length_take_le by lia.
  rewrite lookup_app_l by (rewrite length_replicate; lia).
  apply lookup_replicate_2. lia.
Qed.

Lemma restart_lookup_ellipsis : l' !! (j + diff)%nat = Some IEllipsis.
Proof.
  pose proof (lookup_lt_Some _ _ _ ellipsis) as Hj.
  rewrite lookup_app_r by (rewrite length_take_le; lia).
  rewrite length_take_le by lia.
  rewrite lookup_app_r by (rewrite length_replicate; lia).
  rewrite length_replicate, lookup_drop.
  replace (j + (j + diff - j - diff))%nat with j by lia. done.
Qed.

Lemma restart_clean_fill (k : nat) :
  (k <= diff)%nat -> clean shp l' (j + k) = true.
Proof.
  induction k as [|k IH]; intros Hk.
  - rewrite Nat.add_0_r.
    rewrite <- (clean_agree shp l l' j restart_lookup_before) by lia.
    by destruct first as (_ & Hc & _).
  - rewrite Nat.add_succ_r, clean_S, IH by lia. simpl.
    unfold offending, violates, view_dim_at, stop_at, start_at.
    rewrite restart_lookup_fill by lia. simpl.
    rewrite Z.sub_0_r, Z.ltb_irrefl, andb_false_r. done.
Qed.

Lemma restart_first_offending : first_offending shp l' (j + diff).
Proof.
  pose proof (lookup_lt_Some _ _ _ ellipsis) as Hj.
  split; [lia|]. split.
  - by apply restart_clean_fill.
  - unfold offending. by rewrite restart_lookup_ellipsis.
Qed.

End Restart.

Section Ellipsis.
Context `{B : Backend}.
Variable self : CUDArray.

(** Once the index list has [ndim] elements the rewrite of line 193
    returns the same list, and the call recurses on it until the
    interpreter gives up. *)
Lemma getitem_ellipsis_full (l : list index) (p : nat) :
  length l = length (shape self) ->
  first_offending (shape self) l p ->
  l !! p = Some IEllipsis ->
  forall (depth : nat) (w : world),
    getitem depth self (Sequence ListSeq l) w = (Raise RuntimeError, w).
Proof.
  intros Hlen Hf He. induction depth as [|d IH]; intros w; [done|].
  rewrite (getitem_restarts self d l w p) by (done || lia).
  unfold ndim. rewrite Hlen, Nat.sub_diag. simpl.
  by rewrite take_drop.
Qed.

Lemma getitem_ellipsis_list (l : list index) (j : nat) :
  (length l <= length (shape self))%nat ->
  first_offending (shape self) l j ->
  l !! j = Some IEllipsis ->
  forall (depth : nat) (w : world),
    getitem depth self (Sequence ListSeq l) w = (Raise RuntimeError, w).
Proof.
  intros Hlen Hf He [|d] w; [done|].
  rewrite (getitem_restarts self d l w j) by done.
  apply (getitem_ellipsis_full _ (j + (length (shape self) - length l))).
  - by apply restart_length.
  - by apply restart_first_offending.
  - by apply restart_lookup_ellipsis.
Qed.

(** What an index sequence of at most [ndim] elements with a first
    offending dimension [j] does. *)
Lemma getitem_offending (d : nat) (k : seq_kind) (l : list index) (w : world)
    (j : nat) :
  (length l <= length (shape self))%nat ->
  first_offending (shape self) l j ->
  getitem (S d) self (Sequence k l) w =
  (Raise (match l !! j with
          | Some IOther => IndexError
          | Some IEllipsis =>
              match k with TupleSeq => TypeError | ListSeq => RuntimeError end
          | _ => NotImplementedError
          end), w).
Proof.
  intros Hl Hf.
  destruct (decide (l !! j = Some IEllipsis)) as [He|Hne].
  - rewrite He. destruct k.
    + by apply (getitem_stops_tuple_ellipsis self d l w j).
    + by apply (getitem_ellipsis_list l j).
  - rewrite (getitem_stops self d k l w j Hl Hf Hne).
    destruct (l !! j) as [[n|s e st| |]|]; simpl; try done.
Qed.

End Ellipsis.

(* ===================================================================== *)
(** ** The contiguity rule *)
(* ===================================================================== *)

Lemma all_plain_lookup (l : list index) (i : nat) :
  all_plain l -> plain (l !! i) = true.
Proof.
  intros H. destruct (l !! i) as [x|] eqn:E; [|done].
  by apply (proj1 (Forall_lookup _ l) H i x).
Qed.

Lemma flag_before_true (shp : list Z) (l : list index) (j : nat) :
  flag_before shp l j = true <->
  exists i, (i < j)%nat /\ 1 < view_dim_at shp l i.
Proof.
  unfold flag_before. rewrite existsb_exists. split.
  - intros (i & Hi%in_seq & Hv%Z.ltb_lt). exists i. split; [lia|done].
  - intros (i & Hi & Hv). exists i. split; [apply in_seq; lia|].
    by apply Z.ltb_lt.
Qed.

Lemma violates_true (shp : list Z) (l : list index) (j : nat) :
  violates shp l j = true <->
  (exists i, (i < j)%nat /\ 1 < view_dim_at shp l i) /\
  1 < view_dim_at shp l j < dim_at shp j.
Proof.
  unfold violates. rewrite !andb_true_iff, flag_before_true, !Z.ltb_lt.
  tauto.
Qed.

Section Contiguity.
Context `{B : Backend}.

(** For integers and step-less slices the call either builds the view
    the position-wise reading describes, or stops at the first dimension
    where the contiguity check fires. *)
Lemma getitem_plain (self : CUDArray) (k : seq_kind) (l : list index)
    (d : nat) (w : world) :
  all_plain l ->
  (length l <= ndim self)%nat ->
  (clean (shape self) l (ndim self) = true /\
   getitem (S d) self (Sequence k l) w =
   make_view self (spec_shape (shape self) l (ndim self))
             (spec_offset (shape self) l (ndim self)) w) \/
  (exists j, first_offending (shape self) l j /\
             violates (shape self) l j = true /\
             getitem (S d) self (Sequence k l) w =
             (Raise NotImplementedError, w)).
Proof.
  intros Hp Hl. unfold ndim in *.
  destruct (clean_or_first_offending l (shape self) (length (shape self)))
    as [Hc|(j & Hj & Hc & Ho)].
  - left. split; [done|]. by apply getitem_clean.
  - right. exists j. split; [done|]. split.
    + unfold offending in Ho. by rewrite (all_plain_lookup l j Hp) in Ho.
    + rewrite (getitem_offending self d k l w j Hl) by done.
      pose proof (all_plain_lookup l j Hp) as Hpj.
      by destruct (l !! j) as [[n|s e [st|]| |]|].
Qed.

End Contiguity.

(** C1 (amended).  For an index sequence of integers and step-less slices
    with at most [ndim] elements, walked left to right by the general
    path: the contiguity check raises the unsupported-operation error
    ([NotImplementedError]) whenever some already-processed dimension [i]
    had [view_dim > 1] (a dimension taken whole counts, not only a proper
    partial slice) and a later dimension [j] has [1 < view_dim < dim]; it
    does not raise, and the indexing returns a view, when every
    slice-indexed dimension that comes after a dimension with
    [view_dim > 1] has [view_dim = dim], so in particular a partial slice
    is legal when no earlier dimension had [view_dim > 1].  For shape
    (4,5,6), [handle[1:3, :, 2:4]] fails and [handle[1:3, :, :]]
    succeeds.  (Nothing is said about a slice with [view_dim <= 1] or
    [view_dim > dim] after a dimension with [view_dim > 1].) *)
Theorem contiguity_check `{B : Backend} :
  (forall (self : CUDArray) (k : seq_kind) (l : list index) (d : nat)
          (w : world),
     all_plain l ->
     (length l <= ndim self)%nat ->
     ((exists i j, (i < j < ndim self)%nat /\
                   1 < view_dim_at (shape self) l i /\
                   1 < view_dim_at (shape self) l j < dim_at (shape self) j) ->
      getitem (S d) self (Sequence k l) w = (Raise NotImplementedError, w)) /\
     ((forall i j, (i < j < ndim self)%nat ->
                   1 < view_dim_at (shape self) l i ->
                   is_slice (l !! j) = true ->
                   view_dim_at (shape self) l j = dim_at (shape self) j) ->
      exists v w', getitem (S d) self (Sequence k l) w = (Ok v, w'))) /\
  (forall (self : CUDArray) (k : seq_kind) (d : nat) (w : world),
     shape self = [4; 5; 6] ->
     getitem (S d) self (Sequence k [sl 1 3; full_slice; sl 2 4]) w =
       (Raise NotImplementedError, w) /\
     exists v w',
       getitem (S d) self (Sequence k [sl 1 3; full_slice; full_slice]) w =
         (Ok v, w') /\ shape v = [2; 5; 6]).
Proof.
  split.
  - intros self k l d w Hp Hl.
    destruct (getitem_plain self k l d w Hp Hl)
      as [[Hc Hg]|(j & Hf & Hv & Hg)].
    + rewrite Hg, make_view_eq. split; [|eauto].
      intros (i & j & Hij & Hi & Hj).
      assert (Hv : violates (shape self) l j = true).
      { apply violates_true. split; [|done]. exists i. split; [lia|done]. }
      assert (Ho : offending (shape self) l j = true).
      { unfold offending. by rewrite Hv, orb_true_r. }
      rewrite (clean_lt_offending l (shape self) j (ndim self)) in Ho
        by (done || lia).
      done.
    + split; [done|]. intros Hlegal.
      apply violates_true in Hv as [(i & Hi & Hvi) Hvj].
      destruct Hf as (Hj & _).
      assert (Hs : is_slice (l !! j) = true).
      { pose proof (all_plain_lookup l j Hp) as Hpj.
        unfold view_dim_at, stop_at, start_at in Hvj.
        destruct (l !! j) as [[n|s e [st|]| |]|]; simpl in *;
          try done; lia. }
      assert (view_dim_at (shape self) l j = dim_at (shape self) j) as Heq.
      { apply (Hlegal i j); [unfold ndim; lia|done|done]. }
      lia.
  - intros self k d w Hs. split.
    + simpl. unfold ndim. rewrite Hs. done.
    + simpl. unfold ndim. rewrite Hs. simpl. rewrite make_view_eq. eauto.
Qed.

Lemma contiguity_check_witness :
  getitem 1 h456 (Sequence TupleSeq [full_slice; sl 1 3]) w1 =
    (Raise NotImplementedError, w1).
Proof.
  refine (proj1 (proj1 contiguity_check h456 TupleSeq
                   [full_slice; sl 1 3] 0%nat w1 _ _) _).
  - repeat constructor.
  - unfold ndim. simpl. lia.
  - exists 0%nat, 1%nat. vm_compute. repeat split; try lia; done.
Defined.

(** C1 as stated fails.  With shape (4,5,6), [handle[:, 1:3]] raises the
    unsupported-operation error although no dimension before the partial
    slice is properly partially sliced: dimension 0 is taken whole, so
    the condition the claim gives holds at no dimension. *)
Lemma contiguity_claim_counterexample :
  ~ (getitem 1 h456 (Sequence TupleSeq [full_slice; sl 1 3]) w1 =
       (Raise NotImplementedError, w1) <->
     existsb (claimed_violation [4; 5; 6] [full_slice; sl 1 3]) (seq 0 3)
       = true).
Proof.
  intros [H _]. specialize (H eq_refl). vm_compute in H. discriminate.
Qed.

(* ===================================================================== *)
(** ** The view the general path returns *)
(* ===================================================================== *)

Section Accepted.
Context `{B : Backend}.

Lemma clean_all_plain (shp : list Z) (l : list index) :
  (length l <= length shp)%nat ->
  clean shp l (length shp) = true -> all_plain l.
Proof.
  intros Hl Hc. apply Forall_lookup. intros i x Hx.
  pose proof (lookup_lt_Some _ _ _ Hx) as Hi.
  assert (Ho : offending shp l i = false).
  { apply (clean_lt_offending l shp i (length shp)); [lia|done]. }
  unfold offending in Ho. apply orb_false_iff in Ho as [Ho _].
  rewrite Hx in Ho. by destruct (plain (Some x)).
Qed.

(** A sequence the general path accepts is clean, and the result is
    [make_view] at the position-wise shape and offset. *)
Lemma getitem_accepted (self : CUDArray) (k : seq_kind) (l : list index)
    (depth : nat) (w w' : world) (v : CUDArray) :
  getitem depth self (Sequence k l) w = (Ok v, w') ->
  (length l <= ndim self)%nat /\
  clean (shape self) l (ndim self) = true /\
  v = view_handle self (spec_shape (shape self) l (ndim self))
                  (spec_offset (shape self) l (ndim self)) w /\
  w' = view_world self (spec_shape (shape self) l (ndim self))
                  (spec_offset (shape self) l (ndim self)) w.
Proof.
  destruct depth as [|d]; [done|]. intros Hg. unfold ndim.
  destruct (Nat.lt_ge_cases (length (shape self)) (length l)) as [Hlt|Hl].
  { by rewrite getitem_too_long in Hg. }
  split; [done|].
  destruct (clean_or_first_offending l (shape self) (length (shape self)))
    as [Hc|(j & Hf)].
  - split; [done|].
    rewrite getitem_clean, make_view_eq in Hg by done.
    by injection Hg as <- <-.
  - by rewrite (getitem_offending self d k l w j Hl Hf) in Hg.
Qed.

End Accepted.

(** C2.  For every index sequence the general path accepts: the sequence
    has at most [ndim] elements, all integers or step-less slices; with
    [start] and [stop] of each dimension as [bounds] gives them (full
    range when no index is supplied, [idx, idx+1] for an integer, the
    slice's bounds with 0 and [dim] for absent ones) and integers dropped
    ([retained]), the offset of the result is [offset*dim + start]
    accumulated over all dimensions, its shape is the [view_dim] of the
    retained dimensions in order, its size is their product, and its
    buffer is a new [ArrayData] view owned by the original's buffer at
    that offset; the only call issued is that view construction. *)
Theorem getitem_sequence_view `{B : Backend} (self : CUDArray)
    (k : seq_kind) (l : list index) (depth : nat) (w w' : world)
    (v : CUDArray) :
  getitem depth self (Sequence k l) w = (Ok v, w') ->
  (length l <= ndim self)%nat /\
  all_plain l /\
  shape v = spec_shape (shape self) l (ndim self) /\
  size v = _prod (spec_shape (shape self) l (ndim self)) /\
  _data v = mk_ArrayData (objs w)
              (_prod (spec_shape (shape self) l (ndim self)))
              (dtype_of self) (Some (_data self))
              (spec_offset (shape self) l (ndim self)) /\
  log w' = log w ++ [EvArrayData (_data v) None].
Proof.
  intros (Hl & Hc & -> & ->)%getitem_accepted.
  split; [done|]. split; [by apply (clean_all_plain (shape self))|].
  done.
Qed.

Lemma getitem_sequence_view_witness :
  shape (view_handle h456 [2; 5; 6] 30 w1) =
    spec_shape (shape h456) [sl 1 3; full_slice; full_slice] (ndim h456) /\
  ad_offset (_data (view_handle h456 [2; 5; 6] 30 w1)) = 30.
Proof.
  pose proof (getitem_sequence_view h456 TupleSeq
                [sl 1 3; full_slice; full_slice] 1 w1
                (view_world h456 [2; 5; 6] 30 w1)
                (view_handle h456 [2; 5; 6] 30 w1) eq_refl)
    as (_ & _ & Hs & _ & Hd & _).
  split; [exact Hs|]. by rewrite Hd.
Defined.

(* ===================================================================== *)
(** ** The single-integer path *)
(* ===================================================================== *)

Lemma getitem_int_eq `{B : Backend} (self : CUDArray) (i : Z) (depth : nat)
    (w : world) :
  getitem (S depth) self (Single (IInt i)) w =
  (Ok (view_handle self (tail (shape self)) (i * _prod (tail (shape self))) w),
   view_world self (tail (shape self)) (i * _prod (tail (shape self))) w).
Proof. simpl. by rewrite make_view_eq. Qed.

(** C3.  For a legal shape [S] (non-negative extents) and an integer [i]
    with [0 <= i < S[0]], [handle[i]] returns a view of shape [S[1:]],
    of size [product(S[1:])], whose buffer is a view of the handle's own
    buffer at offset [i * product(S[1:])]. *)
Theorem getitem_single_integer `{B : Backend} (self : CUDArray) (i d0 : Z)
    (depth : nat) (w : world) :
  Forall (fun x => 0 <= x) (shape self) ->
  shape self !! 0%nat = Some d0 ->
  0 <= i < d0 ->
  exists v w',
    getitem (S depth) self (Single (IInt i)) w = (Ok v, w') /\
    shape v = tail (shape self) /\
    size v = _prod (tail (shape self)) /\
    ad_size (_data v) = _prod (tail (shape self)) /\
    ad_owner (_data v) = Some (_data self) /\
    ad_offset (_data v) = i * _prod (tail (shape self)).
Proof.
  intros _ _ _. rewrite getitem_int_eq.
  eexists _, _. split; [reflexivity|]. done.
Qed.

Lemma getitem_single_integer_witness :
  exists v w',
    getitem 1 h456 (Single (IInt 2)) w1 = (Ok v, w') /\
    shape v = [5; 6] /\ size v = 30 /\ ad_size (_data v) = 30 /\
    ad_owner (_data v) = Some (_data h456) /\
    ad_offset (_data v) = 60.
Proof.
  refine (getitem_single_integer h456 2 4 0%nat w1 _ _ _).
  - repeat constructor; simpl; lia.
  - reflexivity.
  - lia.
Defined.

(* ===================================================================== *)
(** ** Ellipsis *)
(* ===================================================================== *)

(** C4 (the code departs from the claim).  Line 193 keeps the ellipsis in
    the rewritten list ([indices[i:]] instead of [indices[i+1:]]) and
    inserts [ndim - k] slices instead of [ndim - (k-1)].  So an index
    sequence that contains an ellipsis never yields a view: the call
    raises and leaves the world untouched, whatever the recursion depth
    allowed.  For shape (4,5,6) and the sequence [1, ...]: as a list the
    call recurses on [1, :, ...] until the interpreter raises
    [RuntimeError]; as a tuple line 193 raises [TypeError] (tuple + list);
    the sequence with the ellipsis replaced by [3 - (2-1) = 2] full-range
    slices returns the view of shape (5,6) at offset 30. *)
Theorem getitem_ellipsis_never_returns `{B : Backend} :
  (forall (self : CUDArray) (k : seq_kind) (l : list index) (depth : nat)
          (w : world),
     In IEllipsis l ->
     exists e, getitem depth self (Sequence k l) w = (Raise e, w)) /\
  (forall (depth : nat) (w : world),
     getitem depth h456 (Sequence ListSeq [IInt 1; IEllipsis]) w =
       (Raise RuntimeError, w)) /\
  (forall (depth : nat) (w : world),
     getitem (S depth) h456 (Sequence TupleSeq [IInt 1; IEllipsis]) w =
       (Raise TypeError, w)) /\
  (forall (depth : nat) (w : world),
     getitem (S depth) h456
       (Sequence ListSeq (expand_ellipsis [IInt 1; IEllipsis] 1 2)) w =
       (Ok (view_handle h456 [5; 6] 30 w), view_world h456 [5; 6] 30 w)).
Proof.
  split; [|split; [|split]].
  - intros self k l depth w Hin.
    destruct depth as [|d]; [by exists RuntimeError|].
    destruct (Nat.lt_ge_cases (length (shape self)) (length l)) as [Hlt|Hl].
    { exists IndexError. by apply getitem_too_long. }
    apply list_elem_of_In, list_elem_of_lookup in Hin as [p Hp].
    pose proof (lookup_lt_Some _ _ _ Hp) as Hlp.
    destruct (clean_or_first_offending l (shape self) (length (shape self)))
      as [Hc|(j & Hf)].
    + assert (Ho : offending (shape self) l p = false).
      { apply (clean_lt_offending l (shape self) p (length (shape self)));
          [lia|done]. }
      unfold offending in Ho. by rewrite Hp in Ho.
    + eexists. by apply (getitem_offending self d k l w j).
  - intros depth w. apply (getitem_ellipsis_list h456 _ 1); [simpl; lia| |done].
    repeat split. simpl. lia.
  - intros depth w. reflexivity.
  - intros depth w. simpl. by rewrite make_view_eq.
Qed.

Lemma getitem_ellipsis_never_returns_witness :
  exists e,
    getitem 7 h456 (Sequence ListSeq [IEllipsis; IInt 0]) w1 = (Raise e, w1).
Proof.
  refine (proj1 getitem_ellipsis_never_returns h456 ListSeq
            [IEllipsis; IInt 0] 7%nat w1 _).
  left. reflexivity.
Defined.

(* ===================================================================== *)
(** ** Error conditions *)
(* ===================================================================== *)

Section Errors.
Context `{B : Backend}.

(** A call that raises leaves the world as it found it. *)
Lemma getitem_raise_world (depth : nat) (self : CUDArray) (idx : index_expr)
    (w w' : world) (e : exn) :
  getitem depth self idx w = (Raise e, w') -> w' = w.
Proof.
  destruct depth as [|d]; [by intros [= _ <-]|].
  destruct idx as [x|k l].
  - destruct x; simpl; try (by intros [= _ <-]).
    by rewrite make_view_eq.
  - destruct (Nat.lt_ge_cases (length (shape self)) (length l)) as [Hlt|Hl].
    { rewrite getitem_too_long by done. by intros [= _ <-]. }
    destruct (clean_or_first_offending l (shape self) (length (shape self)))
      as [Hc|(j & Hf)].
    + by rewrite getitem_clean, make_view_eq.
    + rewrite (getitem_offending self d k l w j Hl Hf). by intros [= _ <-].
Qed.

Lemma offending_kind (shp : list Z) (l : list index) (j : nat) :
  offending shp l j = true ->
  l !! j = Some IOther \/ l !! j = Some IEllipsis \/
  (l !! j <> Some IOther /\ l !! j <> Some IEllipsis /\
   (stepped (l !! j) = true \/ violates shp l j = true)).
Proof.
  unfold offending.
  destruct (l !! j) as [[n|s e [st|]| |]|]; simpl; intros H; auto;
    right; right; (split; [done|]); (split; [done|]); auto.
Qed.

Lemma not_offending_marker (shp : list Z) (l : list index) (j : nat) :
  l !! j = Some IOther \/ l !! j = Some IEllipsis ->
  stepped (l !! j) = false /\ violates shp l j = false.
Proof.
  intros H. unfold violates, view_dim_at, stop_at, start_at.
  destruct H as [-> | ->]; simpl;
    by rewrite Z.sub_0_r, Z.ltb_irrefl, andb_false_r.
Qed.

End Errors.

(** C5 (amended).  For an index sequence: the call raises the indexing
    error ([IndexError]) iff the sequence has more elements than [ndim],
    or the first dimension the walk cannot pass carries an element that
    is neither an integer, a slice nor an ellipsis; it raises the
    unsupported-operation error ([NotImplementedError]) iff the sequence
    has at most [ndim] elements and the first dimension the walk cannot
    pass carries a slice with an explicitly given step (of any value, 1
    included) or is rejected by the contiguity check of line 203
    ([violates]).  Whatever the index expression, a call that raises has
    issued no device buffer operation: the world, its log included, is
    unchanged. *)
Theorem getitem_error_conditions `{B : Backend} (self : CUDArray)
    (k : seq_kind) (l : list index) (d : nat) (w : world) :
  (getitem (S d) self (Sequence k l) w = (Raise IndexError, w) <->
   (ndim self < length l)%nat \/
   exists j, first_offending (shape self) l j /\ l !! j = Some IOther) /\
  (getitem (S d) self (Sequence k l) w = (Raise NotImplementedError, w) <->
   (length l <= ndim self)%nat /\
   exists j, first_offending (shape self) l j /\
             (stepped (l !! j) = true \/ violates (shape self) l j = true)) /\
  (forall (depth : nat) (idx : index_expr) (e : exn) (w' : world),
     getitem depth self idx w = (Raise e, w') ->
     w' = w /\ log w' = log w).
Proof.
  unfold ndim.
  split; [|split].
  - split.
    + intros Hg.
      destruct (Nat.lt_ge_cases (length (shape self)) (length l)) as [Hlt|Hl];
        [by left|right].
      destruct (clean_or_first_offending l (shape self) (length (shape self)))
        as [Hc|(j & Hf)].
      * by rewrite getitem_clean, make_view_eq in Hg.
      * exists j. split; [done|].
        rewrite (getitem_offending self d k l w j Hl Hf) in Hg.
        by destruct (l !! j) as [[n|s e st| |]|], k.
    + intros [Hlt|(j & Hf & Hj)]; [by apply getitem_too_long|].
      destruct (Nat.lt_ge_cases (length (shape self)) (length l)) as [Hlt|Hl];
        [by apply getitem_too_long|].
      by rewrite (getitem_offending self d k l w j Hl Hf), Hj.
  - split.
    + intros Hg.
      destruct (Nat.lt_ge_cases (length (shape self)) (length l)) as [Hlt|Hl].
      { by rewrite getitem_too_long in Hg. }
      split; [done|].
      destruct (clean_or_first_offending l (shape self) (length (shape self)))
        as [Hc|(j & Hf)].
      * by rewrite getitem_clean, make_view_eq in Hg.
      * exists j. split; [done|].
        rewrite (getitem_offending self d k l w j Hl Hf) in Hg.
        destruct Hf as (_ & _ & Ho).
        destruct (offending_kind _ _ _ Ho) as [He|[He|(_ & _ & H)]];
          [| |done]; rewrite He in Hg; by destruct k.
    + intros (Hl & j & Hf & Hsv).
      rewrite (getitem_offending self d k l w j Hl Hf).
      destruct (l !! j) as [[n|s e st| |]|] eqn:E; try done.
      * destruct (not_offending_marker (shape self) l j) as [H1 H2];
          [right; done|].
        rewrite E in H1. destruct Hsv; congruence.
      * destruct (not_offending_marker (shape self) l j) as [H1 H2];
          [left; done|].
        rewrite E in H1. destruct Hsv; congruence.
  - intros depth idx e w' Hg.
    apply getitem_raise_world in Hg. by subst.
Qed.

Lemma getitem_error_conditions_witness :
  getitem 1 h456 (Sequence TupleSeq [sl 1 3; IOther]) w1 =
    (Raise IndexError, w1) /\
  (w1 = w1 /\ log w1 = log w1).
Proof.
  split.
  - refine (proj2 (proj1 (getitem_error_conditions h456 TupleSeq
                            [sl 1 3; IOther] 0%nat w1)) _).
    right. exists 1%nat. split; [|reflexivity].
    split; [simpl; lia|]. split; reflexivity.
  - refine (proj2 (proj2 (getitem_error_conditions h456 TupleSeq
                            [sl 1 3; IOther] 0%nat w1))
              1%nat (Sequence TupleSeq [sl 1 3; IOther]) IndexError w1 _).
    reflexivity.
Defined.

(** C5 as stated fails.  With shape (4,5,6): [handle[::1]] (unit step)
    raises the unsupported-operation error although no slice has a
    non-unit step and no contiguity rule is broken; and the sequence
    [(::2, x)] with [x] of an invalid type contains an invalid element
    but raises the unsupported-operation error, not the indexing
    error. *)
Lemma error_claim_counterexample :
  ~ (getitem 1 h456 (Sequence TupleSeq [ISlice None None (Some 1)]) w1 =
       (Raise NotImplementedError, w1) <->
     existsb nonunit_step [ISlice None None (Some 1)] = true \/
     existsb (violates [4; 5; 6] [ISlice None None (Some 1)]) (seq 0 3) = true \/
     existsb (claimed_violation [4; 5; 6] [ISlice None None (Some 1)])
             (seq 0 3) = true) /\
  ~ (getitem 1 h456 (Sequence TupleSeq [ISlice None None (Some 2); IOther]) w1 =
       (Raise IndexError, w1) <->
     Nat.lt 3 (length [ISlice None None (Some 2); IOther]) \/
     existsb invalid_element [ISlice None None (Some 2); IOther] = true).
Proof.
  split.
  - intros [H _]. specialize (H eq_refl). vm_compute in H.
    destruct H as [H|[H|H]]; discriminate.
  - intros [_ H]. assert (Hr : existsb invalid_element
                     [ISlice None None (Some 2); IOther] = true) by done.
    specialize (H (or_intror Hr)). vm_compute in H. discriminate.
Qed.

(* ===================================================================== *)
(** ** Construction and materialisation *)
(* ===================================================================== *)

Section Construction.
Context `{B : Backend}.

(** A fresh handle: [__init__] without [array_data]. *)
Lemma CUDArray_init_fresh (shp : shape_arg) (dt : option dtype)
    (np_data : option (ndarray elem)) (w : world) :
  exists h w',
    CUDArray_init shp dt np_data None w = (Ok h, w') /\
    shape h = _require_iterable shp /\
    dtype_of h = fst (normalize_dtype (infer_dtype dt np_data)) /\
    isbool h = snd (normalize_dtype (infer_dtype dt np_data)) /\
    ad_owner (_data h) = None /\
    ad_size (_data h) = _prod (_require_iterable shp).
Proof.
  unfold CUDArray_init.
  destruct (normalize_dtype (infer_dtype dt np_data)) as [d flag].
  eexists _, _. split; [reflexivity|]. done.
Qed.

Lemma normalize_dtype_float :
  is_float_kind float_ = true -> normalize_dtype float_ = (float_, false).
Proof.
  intros H. unfold normalize_dtype.
  destruct (decide (float_ = Float64)) as [_|_]; [done|].
  destruct (decide (float_ = Int64)) as [E|_]; [by rewrite E in H|].
  destruct (decide (float_ = Bool)) as [E|_]; [by rewrite E in H|].
  done.
Qed.

Lemma array_eq (self : CUDArray) (w : world) :
  __array__ self w =
  (Ok (let a := mk_ndarray (dtype_of self) (shape self)
                  (dev_to_numpy (_data self) (shape self) (dev w)) in
       if isbool self then astype a Bool else a),
   {| dev := dev w; objs := objs w;
      log := log w ++ [EvToNumpy (_data self)] |}).
Proof. reflexivity. Qed.

End Construction.

(** C6.  At construction: with [dtype] omitted the kind is the host
    data's, and [base.float_] when there is no host data; [float64]
    becomes [base.float_], [int64] becomes [base.int_], [bool] becomes
    [base.bool_] with [isbool] set, and [isbool] is set for [bool] only;
    a fresh handle stores the normalised kind (the canonical float kind
    itself when nothing is given, [base.float_] being a float kind).
    For every handle with [isbool] set, [__array__] returns a [bool]
    array, the items read from the buffer converted from the storage
    kind; so a handle built from boolean host data has [isbool] set,
    stores [base.bool_] and materialises as a [bool] array. *)
Theorem construction_and_materialisation `{B : Backend} :
  (forall a : ndarray elem, infer_dtype None (Some a) = nd_dtype a) /\
  infer_dtype None None = float_ /\
  normalize_dtype Float64 = (float_, false) /\
  normalize_dtype Int64 = (int_, false) /\
  normalize_dtype Bool = (bool_, true) /\
  (forall d : dtype, snd (normalize_dtype d) = true <-> d = Bool) /\
  (forall (shp : shape_arg) (dt : option dtype)
          (np_data : option (ndarray elem)) (w : world),
     exists h w',
       CUDArray_init shp dt np_data None w = (Ok h, w') /\
       dtype_of h = fst (normalize_dtype (infer_dtype dt np_data)) /\
       isbool h = snd (normalize_dtype (infer_dtype dt np_data))) /\
  (is_float_kind float_ = true ->
   forall (shp : shape_arg) (w : world),
     exists h w',
       CUDArray_init shp None None None w = (Ok h, w') /\
       dtype_of h = float_ /\ isbool h = false) /\
  (forall (self : CUDArray) (w : world),
     isbool self = true ->
     exists a w',
       __array__ self w = (Ok a, w') /\
       nd_dtype a = Bool /\
       nd_shape a = shape self /\
       nd_items a = map (cast (dtype_of self) Bool)
                        (dev_to_numpy (_data self) (shape self) (dev w))) /\
  (forall (shp : shape_arg) (a : ndarray elem) (w : world),
     nd_dtype a = Bool ->
     exists h w1 out w2,
       CUDArray_init shp None (Some a) None w = (Ok h, w1) /\
       isbool h = true /\ dtype_of h = bool_ /\
       __array__ h w1 = (Ok out, w2) /\
       nd_dtype out = Bool).
Proof.
  repeat apply conj; try reflexivity.
  - intros d. rewrite normalize_dtype_flag. by rewrite bool_decide_eq_true.
  - intros shp dt np_data w.
    destruct (CUDArray_init_fresh shp dt np_data w)
      as (h & w' & Hi & _ & Hd & Hb & _).
    eauto.
  - intros Hf shp w.
    destruct (CUDArray_init_fresh shp None None w)
      as (h & w' & Hi & _ & Hd & Hb & _).
    simpl in Hd, Hb. rewrite normalize_dtype_float in Hd, Hb by done.
    eauto.
  - intros self w Hb. rewrite array_eq, Hb.
    eexists _, _. split; [reflexivity|]. done.
  - intros shp a w Ha.
    destruct (CUDArray_init_fresh shp None (Some a) w)
      as (h & w1 & Hi & _ & Hd & Hb & _).
    simpl in Hd, Hb. rewrite Ha in Hd, Hb.
    exists h, w1. rewrite array_eq, Hb. simpl.
    eexists _, _. repeat split; eauto.
Qed.

Lemma construction_and_materialisation_witness :
  exists h w1 out w2,
    CUDArray_init (ShapeInt 3) None
      (Some (mk_ndarray Bool [3] [1; 0; 1])) None w0 = (Ok h, w1) /\
    isbool h = true /\ dtype_of h = Int32 /\
    __array__ h w1 = (Ok out, w2) /\
    nd_dtype out = Bool.
Proof.
  refine (proj2 (proj2 (proj2 (proj2 (proj2 (proj2 (proj2 (proj2 (proj2
            construction_and_materialisation))))))))
            (ShapeInt 3) (mk_ndarray Bool [3] [1; 0; 1]) w0 _).
  reflexivity.
Defined.

(* ===================================================================== *)
(** ** The write path *)
(* ===================================================================== *)

(** Every view [__getitem__] returns is built by [make_view]. *)
Lemma getitem_ok_view `{B : Backend} (depth : nat) (self : CUDArray)
    (idx : index_expr) (w w1 : world) (v : CUDArray) :
  getitem depth self idx w = (Ok v, w1) ->
  exists vshape off,
    v = view_handle self vshape off w /\ w1 = view_world self vshape off w.
Proof.
  destruct idx as [x|k l].
  - destruct depth as [|d]; [done|].
    destruct x; try done.
    rewrite getitem_int_eq. intros [= <- <-]. eauto.
  - intros (_ & _ & -> & ->)%getitem_accepted. eauto.
Qed.

(** C7.  [handle[idx] = c] runs the read path [handle[idx]] and hands the
    view and [c] to [base.copyto].  When the read path raises, the write
    path raises the same exception with the world unchanged, so before
    any copy.  When it returns a view, the calls issued are the
    construction of that view (an [ArrayData] owned by the handle's
    buffer, not an allocation) followed by the [copyto] call, whose
    result is the result of the assignment. *)
Theorem setitem_delegates `{B : Backend} (self : CUDArray)
    (idx : index_expr) (c : source) (depth : nat) (w : world) :
  setitem depth self idx c w =
    match getitem depth self idx w with
    | (Ok v, w1) => base_copyto v c w1
    | (Raise e, w1) => (Raise e, w1)
    end /\
  (forall (e : exn) (w1 : world),
     getitem depth self idx w = (Raise e, w1) ->
     setitem depth self idx c w = (Raise e, w)) /\
  (forall (v : CUDArray) (w1 : world),
     getitem depth self idx w = (Ok v, w1) ->
     exists r w2,
       setitem depth self idx c w = (r, w2) /\
       (r, dev w2) = dev_copyto v c (dev w1) /\
       log w2 = log w ++ [EvArrayData (_data v) None; EvCopyto v c] /\
       ad_owner (_data v) = Some (_data self) /\
       forallb (fun ev => negb (is_alloc ev))
               [EvArrayData (_data v) None; EvCopyto v c] = true).
Proof.
  split; [|split].
  - unfold setitem, bind. by destruct (getitem depth self idx w) as [[v|e] w1].
  - intros e w1 Hg. unfold setitem, bind. rewrite Hg.
    by rewrite (getitem_raise_world _ _ _ _ _ _ Hg).
  - intros v w1 Hg. unfold setitem, bind. rewrite Hg.
    destruct (getitem_ok_view _ _ _ _ _ _ Hg) as (vs & off & -> & ->).
    unfold base_copyto.
    destruct (dev_copyto _ c _) as [r dv] eqn:E.
    eexists _, _. split; [reflexivity|]. simpl.
    rewrite <- app_assoc. done.
Qed.

Lemma setitem_delegates_witness :
  setitem 1 h456 (Sequence TupleSeq [sl 1 3; full_slice; sl 2 4]) 7 w1 =
    (Raise NotImplementedError, w1).
Proof.
  refine (proj1 (proj2 (setitem_delegates h456
            (Sequence TupleSeq [sl 1 3; full_slice; sl 2 4]) 7 1%nat w1))
            NotImplementedError w1 _).
  reflexivity.
Defined.

(* ===================================================================== *)
(** ** [view] *)
(* ===================================================================== *)

Lemma view_eq `{B : Backend} (self : CUDArray) (w : world) :
  view self w =
  (Ok (mk_CUDArray (shape self) false
         (snd (normalize_dtype (dtype_of self))) (_data self)), w).
Proof. unfold view. by rewrite CUDArray_init_borrow. Qed.

(** C8.  [view()] returns a new handle with the shape and the dtype of
    the original that holds the very same [ArrayData] reference, hence
    the same buffer at the same offset; it issues no call (the world and
    its log are unchanged: no allocation, no copy).  In every state of
    the device, so after any write through either handle, the transfer
    [__array__] performs reads the same items through both. *)
Theorem view_shares_buffer `{B : Backend} (self : CUDArray) (w : world) :
  exists v,
    view self w = (Ok v, w) /\
    shape v = shape self /\
    dtype_of v = dtype_of self /\
    _data v = _data self /\
    ad_id (_data v) = ad_id (_data self) /\
    ad_offset (_data v) = ad_offset (_data self) /\
    (forall w' : world,
       ArrayData_to_numpy (_data v) (np_empty (shape v) (dtype_of v)) w' =
       ArrayData_to_numpy (_data self)
         (np_empty (shape self) (dtype_of self)) w').
Proof.
  rewrite view_eq. eexists. split; [reflexivity|]. done.
Qed.

(* ===================================================================== *)
(** ** No bounds validation *)
(* ===================================================================== *)

Lemma fold_left_mul (x : list Z) (a : Z) :
  fold_left Z.mul x a = a * _prod x.
Proof.
  unfold _prod. revert a. induction x as [|d x IH]; intros a; simpl.
  - lia.
  - rewrite (IH (a * d)), (IH (1 * d)). lia.
Qed.

Lemma _prod_cons (d : Z) (x : list Z) : _prod (d :: x) = d * _prod x.
Proof. unfold _prod at 1. simpl. rewrite fold_left_mul. lia. Qed.

(** The dimensions past the end of the index sequence are taken whole. *)
Lemma walk_no_index (nd : nat) (k : seq_kind) (l : list index)
    (dims : list Z) : forall (i : nat) (st : loop_state),
  (length l <= i)%nat ->
  walk nd k l i dims st =
  Continue (mk_loop_state (view_shape st ++ dims)
              (rest_must_be_contiguous st || existsb (fun d => 1 <? d) dims)
              (offset st * _prod dims)).
Proof.
  induction dims as [|d dims IH]; intros i [vs flag off] Hi; simpl.
  - by rewrite app_nil_r, orb_false_r, Z.mul_1_r.
  - unfold loop_body. rewrite (lookup_ge_None_2 l i) by lia.
    unfold loop_tail. simpl.
    rewrite Z.sub_0_r, Z.ltb_irrefl, andb_false_r.
    rewrite IH by lia. simpl.
    rewrite <- app_assoc, _prod_cons. simpl. f_equal. f_equal.
    + by destruct (1 <? d), flag.
    + lia.
Qed.

(** C9.  Indexing checks nothing against the extents.  For every integer
    [i], negative or beyond [shape[0]] included, [handle[i]] returns the
    view of shape [shape[1:]] at offset [i * product(shape[1:])].  For
    every [start] and [stop], inside [0..dim] or not, the one-slice
    sequence [handle[start:stop]] returns the view of shape
    [(stop-start) :: shape[1:]] at offset [start * product(shape[1:])].
    So for shape (4,5,6): [handle[7]] is a 30-element view at offset 210
    of a 120-element buffer, [handle[-2]] sits at offset -60, and
    [handle[2:10]] has 240 elements. *)
Theorem no_bounds_validation `{B : Backend} :
  (forall (self : CUDArray) (i : Z) (depth : nat) (w : world),
     exists v w',
       getitem (S depth) self (Single (IInt i)) w = (Ok v, w') /\
       shape v = tail (shape self) /\
       ad_size (_data v) = _prod (tail (shape self)) /\
       ad_offset (_data v) = i * _prod (tail (shape self))) /\
  (forall (self : CUDArray) (k : seq_kind) (start stop dim : Z)
          (rest : list Z) (depth : nat) (w : world),
     shape self = dim :: rest ->
     exists v w',
       getitem (S depth) self
         (Sequence k [ISlice (Some start) (Some stop) None]) w = (Ok v, w') /\
       shape v = (stop - start) :: rest /\
       ad_size (_data v) = (stop - start) * _prod rest /\
       ad_offset (_data v) = start * _prod rest) /\
  (exists v w', getitem 1 h456 (Single (IInt 7)) w1 = (Ok v, w') /\
                ad_offset (_data v) = 210 /\ ad_size (_data v) = 30 /\
                size h456 = 120) /\
  (exists v w', getitem 1 h456 (Single (IInt (-2))) w1 = (Ok v, w') /\
                ad_offset (_data v) = -60) /\
  (exists v w', getitem 1 h456 (Sequence TupleSeq [sl 2 10]) w1 = (Ok v, w') /\
                ad_offset (_data v) = 60 /\ ad_size (_data v) = 240).
Proof.
  split; [|split; [|split; [|split]]].
  - intros self i depth w. rewrite getitem_int_eq.
    eexists _, _. split; [reflexivity|]. done.
  - intros self k start stop dim rest depth w Hs.
    simpl. unfold ndim. rewrite Hs. simpl.
    unfold loop_body, loop_tail. simpl.
    rewrite walk_no_index by (simpl; lia). simpl.
    rewrite make_view_eq.
    eexists _, _. split; [reflexivity|]. simpl.
    rewrite _prod_cons. done.
  - eexists _, _. split; [reflexivity|]. done.
  - eexists _, _. split; [reflexivity|]. done.
  - eexists _, _. split; [reflexivity|]. done.
Qed.

Lemma no_bounds_validation_witness :
  exists v w',
    getitem 1 h456 (Sequence ListSeq [ISlice (Some (-3)) (Some 9) None]) w1 =
      (Ok v, w') /\
    shape v = [12; 5; 6] /\ ad_size (_data v) = 360 /\
    ad_offset (_data v) = -90.
Proof.
  refine (proj1 (proj2 no_bounds_validation) h456 ListSeq (-3) 9 4 [5; 6]
            0%nat w1 _).
  reflexivity.
Defined.

(* ===================================================================== *)
(** ** The boolean flag on derived handles *)
(* ===================================================================== *)

(** A handle that owns its buffer and has [isbool] set stores
    [base.bool_]. *)
Lemma fresh_bool_handle `{B : Backend} (shp : shape_arg) (dt : option dtype)
    (np_data : option (ndarray elem)) (w w' : world) (h : CUDArray) :
  CUDArray_init shp dt np_data None w = (Ok h, w') ->
  isbool h = true ->
  dtype_of h = bool_.
Proof.
  destruct (CUDArray_init_fresh shp dt np_data w)
    as (h0 & w0' & Hi & _ & Hd & Hb & _).
  rewrite Hi. intros [= <- <-]. rewrite Hd, Hb.
  unfold normalize_dtype. by repeat case_decide.
Qed.

(** C10.  [base.bool_] not being [bool], take a handle with [isbool] set
    that stores [base.bool_] (as every handle built from boolean data
    does).  The handle [view()] returns and every view [__getitem__]
    returns have [isbool] unset, because they are constructed with the
    stored dtype [base.bool_] and the constructor sets the flag for
    [bool] only; materialising such a derived handle yields an array of
    kind [base.bool_], the raw items, not a [bool] array. *)
Theorem derived_handles_lose_isbool `{B : Backend} (self : CUDArray) :
  bool_ <> Bool ->
  isbool self = true ->
  dtype_of self = bool_ ->
  (forall w : world,
     exists v, view self w = (Ok v, w) /\
               isbool v = false /\ dtype_of v = bool_) /\
  (forall (depth : nat) (idx : index_expr) (w w' : world) (v : CUDArray),
     getitem depth self idx w = (Ok v, w') ->
     isbool v = false /\ dtype_of v = bool_) /\
  (forall (v : CUDArray) (w1 : world),
     ((exists w, view self w = (Ok v, w)) \/
      (exists depth idx w w', getitem depth self idx w = (Ok v, w'))) ->
     exists a w2,
       __array__ v w1 = (Ok a, w2) /\
       nd_dtype a = bool_ /\ nd_dtype a <> Bool /\
       nd_items a = dev_to_numpy (_data v) (shape v) (dev w1)).
Proof.
  intros Hne Hb Hd.
  assert (Hflag : snd (normalize_dtype (dtype_of self)) = false).
  { rewrite normalize_dtype_flag, Hd. by apply bool_decide_eq_false_2. }
  assert (Hview : forall w, exists v, view self w = (Ok v, w) /\
                    isbool v = false /\ dtype_of v = bool_).
  { intros w. rewrite view_eq. eexists. split; [reflexivity|]. done. }
  assert (Hget : forall depth idx w w' v,
            getitem depth self idx w = (Ok v, w') ->
            isbool v = false /\ dtype_of v = bool_).
  { intros depth idx w w' v (vs & off & -> & _)%getitem_ok_view. done. }
  split; [done|]. split; [done|].
  intros v w1 Hv.
  assert (isbool v = false /\ dtype_of v = bool_) as [Hvb Hvd].
  { destruct Hv as [[w Hw]|(depth & idx & w & w' & Hg)].
    - destruct (Hview w) as (v' & Hv' & H). rewrite Hv' in Hw.
      by injection Hw as <-.
    - by apply (Hget depth idx w w'). }
  rewrite array_eq, Hvb. eexists _, _. split; [reflexivity|]. simpl.
  by rewrite Hvd.
Qed.

Lemma derived_handles_lose_isbool_witness :
  CUDArray_init (ShapeInt 3) None (Some (mk_ndarray Bool [3] [1; 0; 1])) None w0
    = (Ok hbool, mk_world [(0%nat, [1; 0; 1])] 1
                   [EvArrayData (mk_ArrayData 0 3 Int32 None 0)
                      (Some (mk_ndarray Int32 [3] [1; 0; 1]))]) /\
  forall (depth : nat) (idx : index_expr) (w w' : world) (v : CUDArray),
    getitem depth hbool idx w = (Ok v, w') ->
    isbool v = false /\ dtype_of v = Int32.
Proof.
  split; [reflexivity|].
  refine (proj1 (proj2 (derived_handles_lose_isbool hbool _ _ _))).
  - discriminate.
  - reflexivity.
  - reflexivity.
Defined.

(* ===================================================================== *)
(** ** Views of in-range indices stay inside the buffer *)
(* ===================================================================== *)

Lemma _prod_app (x y : list Z) : _prod (x ++ y) = _prod x * _prod y.
Proof.
  unfold _prod at 1. rewrite fold_left_app, fold_left_mul.
  fold (_prod x). lia.
Qed.

Lemma _prod_nonneg (x : list Z) :
  Forall (fun d => 0 <= d) x -> 0 <= _prod x.
Proof.
  induction 1 as [|d x Hd _ IH]; [done|]. rewrite _prod_cons. nia.
Qed.

Section InRange.
Variables (shp : list Z) (l : list index).

Lemma prod_spec_shape_S (j : nat) :
  _prod (spec_shape shp l (S j)) =
  _prod (spec_shape shp l j) * view_dim_at shp l j.
Proof.
  rewrite spec_shape_S, _prod_app.
  unfold view_dim_at, stop_at, start_at.
  destruct (l !! j) as [[n|s e st| |]|]; simpl;
    rewrite ?_prod_cons; unfold _prod; simpl; lia.
Qed.

Lemma prod_take_S (j : nat) :
  (j < length shp)%nat ->
  _prod (take (S j) shp) = _prod (take j shp) * dim_at shp j.
Proof.
  intros Hj. destruct (lookup_lt_is_Some_2 shp j Hj) as [d Hd].
  rewrite (take_S_r _ _ _ Hd), _prod_app. unfold dim_at.
  rewrite (nth_lookup_Some _ _ _ _ Hd), _prod_cons.
  replace (_prod []) with 1 by done. lia.
Qed.

Lemma in_range_extent (j : nat) :
  (j <= length shp)%nat -> in_range shp l j ->
  0 <= spec_offset shp l j /\
  1 <= _prod (spec_shape shp l j) /\
  spec_offset shp l j + _prod (spec_shape shp l j) <= _prod (take j shp).
Proof.
  induction j as [|j IH]; intros Hj Hr.
  - rewrite take_0. unfold spec_offset, spec_shape, _prod. simpl. lia.
  - destruct IH as (Ho & Hs & Hle); [lia|intros i Hi; apply Hr; lia|].
    destruct (Hr j) as (H0 & H1 & H2); [lia|].
    rewrite spec_offset_S, prod_spec_shape_S, prod_take_S by lia.
    unfold view_dim_at. nia.
Qed.

End InRange.

(** X1.  When every dimension selects a non-empty range inside its
    extent ([0 <= start < stop <= dim], an integer [idx] counting as
    [idx, idx+1]), a view the general path returns lies inside the
    indexed handle's extent: its offset is non-negative, it has at least
    one element, and offset plus size does not exceed the handle's
    size. *)
Theorem in_range_view_inside_buffer `{B : Backend} (self : CUDArray)
    (k : seq_kind) (l : list index) (depth : nat) (w w' : world)
    (v : CUDArray) :
  in_range (shape self) l (ndim self) ->
  getitem depth self (Sequence k l) w = (Ok v, w') ->
  0 <= ad_offset (_data v) /\
  1 <= ad_size (_data v) /\
  ad_size (_data v) = size v /\
  ad_offset (_data v) + ad_size (_data v) <= size self.
Proof.
  intros Hr (Hl & Hc & -> & _)%getitem_accepted.
  destruct (in_range_extent (shape self) l (ndim self)) as (Ho & Hs & Hle);
    [done|done|].
  unfold ndim in Hle. rewrite firstn_all in Hle.
  simpl. unfold size. simpl. done.
Qed.

Lemma in_range_view_inside_buffer_witness :
  0 <= 42 /\ 1 <= 12 /\ 12 = size (view_handle h456 [2; 6] 42 w1) /\
  42 + 12 <= size h456.
Proof.
  refine (in_range_view_inside_buffer h456 TupleSeq [IInt 1; sl 2 4] 1 w1
            (view_world h456 [2; 6] 42 w1)
            (view_handle h456 [2; 6] 42 w1) _ eq_refl).
  intros i Hi. unfold ndim in Hi. simpl in Hi.
  destruct i as [|[|[|i]]]; vm_compute; try lia; repeat split; discriminate.
Defined.

(** Without the non-emptiness the bound fails: on shape (4,5) the empty
    selection [handle[4:4, 2:3]] is accepted with offset 22 in a buffer
    of 20 elements. *)
Example empty_slice_offset_outside :
  exists v w',
    getitem 1 (mk_CUDArray [4; 5] false false (mk_ArrayData 0 20 Float32 None 0))
      (Sequence TupleSeq [sl 4 4; sl 2 3]) w0 = (Ok v, w') /\
    ad_offset (_data v) = 22 /\ ad_size (_data v) = 0.
Proof. eexists _, _. split; [reflexivity|]. done. Qed.

(** X2.  For a legal shape and [0 <= i < shape[0]], the view [handle[i]]
    lies inside the handle's extent, the view [handle[i+1]] starts where
    [handle[i]] ends, and [shape[0]] such views make up exactly the
    handle's size. *)
Theorem getitem_int_tiles_buffer `{B : Backend} (self : CUDArray) (i d0 : Z)
    (rest : list Z) (depth : nat) (w : world) :
  Forall (fun x => 0 <= x) (shape self) ->
  shape self = d0 :: rest ->
  0 <= i < d0 ->
  exists v v' w1 w2,
    getitem (S depth) self (Single (IInt i)) w = (Ok v, w1) /\
    getitem (S depth) self (Single (IInt (i + 1))) w = (Ok v', w2) /\
    0 <= ad_offset (_data v) /\
    ad_offset (_data v) + ad_size (_data v) <= size self /\
    ad_offset (_data v') = ad_offset (_data v) + ad_size (_data v) /\
    d0 * ad_size (_data v) = size self.
Proof.
  intros Hpos Hs Hi. rewrite !getitem_int_eq.
  eexists _, _, _, _. split; [reflexivity|]. split; [reflexivity|].
  simpl. unfold size. rewrite Hs in *. simpl. rewrite _prod_cons.
  apply Forall_cons in Hpos as [_ Hrest].
  pose proof (_prod_nonneg rest Hrest). nia.
Qed.

Lemma getitem_int_tiles_buffer_witness :
  exists v v' w2 w3,
    getitem 1 h456 (Single (IInt 3)) w1 = (Ok v, w2) /\
    getitem 1 h456 (Single (IInt (3 + 1))) w1 = (Ok v', w3) /\
    0 <= ad_offset (_data v) /\
    ad_offset (_data v) + ad_size (_data v) <= size h456 /\
    ad_offset (_data v') = ad_offset (_data v) + ad_size (_data v) /\
    4 * ad_size (_data v) = size h456.
Proof.
  refine (getitem_int_tiles_buffer h456 3 4 [5; 6] 0%nat w1 _ _ _).
  - repeat constructor; simpl; lia.
  - reflexivity.
  - lia.
Defined.

(* ===================================================================== *)
(** ** Integer indices *)
(* ===================================================================== *)

(** The walk over dimensions that all carry an integer index. *)
Lemma walk_ints (nd : nat) (k : seq_kind) (l : list index) (dims : list Z) :
  forall (idxs : list Z) (i : nat) (st : loop_state),
  length idxs = length dims ->
  (forall p x, idxs !! p = Some x -> l !! (i + p)%nat = Some (IInt x)) ->
  walk nd k l i dims st =
  Continue (mk_loop_state (view_shape st) (rest_must_be_contiguous st)
              (offset st * _prod dims + ravel dims idxs)).
Proof.
  induction dims as [|d dims IH]; intros idxs i [vs flag off] Hlen Hl.
  - destruct idxs; [|done]. simpl. f_equal. f_equal. unfold _prod. simpl. lia.
  - destruct idxs as [|x idxs]; [done|]. simpl.
    unfold loop_body. rewrite <- (Nat.add_0_r i) at 1.
    rewrite (Hl 0%nat x eq_refl). unfold loop_tail. simpl.
    replace (x + 1 - x) with 1 by lia. simpl. rewrite andb_false_r. simpl.
    rewrite (IH idxs (S i)).
    + simpl. rewrite _prod_cons. f_equal. f_equal. lia.
    + simpl in Hlen. lia.
    + intros p y Hp. replace (S i + p)%nat with (i + S p)%nat by lia.
      by apply Hl.
Qed.

(** Integers for the first dimensions, nothing for the rest. *)
Lemma getitem_ints_eq `{B : Backend} (self : CUDArray) (k : seq_kind)
    (idxs : list Z) (depth : nat) (w : world) :
  (length idxs <= ndim self)%nat ->
  getitem (S depth) self (Sequence k (map IInt idxs)) w =
  make_view self (drop (length idxs) (shape self))
    (ravel (take (length idxs) (shape self)) idxs *
     _prod (drop (length idxs) (shape self))) w.
Proof.
  intros Hl. unfold ndim in Hl.
  assert (Hwalk :
    walk (ndim self) k (map IInt idxs) 0
         (take (length idxs) (shape self) ++ drop (length idxs) (shape self))
         (mk_loop_state [] false 0) =
    Continue (mk_loop_state (drop (length idxs) (shape self))
            (existsb (fun d => 1 <? d) (drop (length idxs) (shape self)))
            (ravel (take (length idxs) (shape self)) idxs *
             _prod (drop (length idxs) (shape self))))).
  { rewrite walk_app, (walk_ints _ _ _ _ idxs).
    - by rewrite walk_no_index by (rewrite length_map, length_take_le; lia).
    - rewrite length_take_le; lia.
    - intros p x Hp. simpl. by rewrite list_lookup_fmap, Hp. }
  rewrite take_drop in Hwalk.
  simpl. rewrite length_map.
  destruct (Nat.ltb_spec (length (shape self)) (length idxs)); [lia|].
  by rewrite Hwalk.
Qed.

(** X3.  On a handle with at least one dimension the single-integer
    path and the general path agree: [handle[i]] and [handle[(i,)]] are
    the same view.  On a 0-dimensional handle they differ: the general
    path rejects the index ([IndexError], as does [len]), while
    [handle[i]] returns a one-element view at offset [i] for every
    integer [i]. *)
Theorem getitem_int_vs_sequence `{B : Backend} (self : CUDArray) (i : Z)
    (k : seq_kind) (depth : nat) (w : world) :
  (shape self <> [] ->
   getitem (S depth) self (Sequence k [IInt i]) w =
   getitem (S depth) self (Single (IInt i)) w) /\
  (shape self = [] ->
   getitem (S depth) self (Sequence k [IInt i]) w = (Raise IndexError, w) /\
   __len__ self = Raise IndexError /\
   exists v w',
     getitem (S depth) self (Single (IInt i)) w = (Ok v, w') /\
     shape v = [] /\ ad_size (_data v) = 1 /\ ad_offset (_data v) = i).
Proof.
  split.
  - intros Hne. destruct (shape self) as [|d rest] eqn:Hs; [done|].
    change [IInt i] with (map IInt [i]).
    rewrite (getitem_ints_eq self k [i]) by (unfold ndim; rewrite Hs; simpl; lia).
    rewrite getitem_int_eq, make_view_eq, Hs. simpl.
    rewrite take_0, drop_0. replace (_prod []) with 1 by done.
    by replace ((i * 1 + 0) * _prod rest) with (i * _prod rest) by lia.
  - intros Hs. split; [|split].
    + apply getitem_too_long. rewrite Hs. simpl. lia.
    + unfold __len__. by rewrite Hs.
    + rewrite getitem_int_eq, Hs. eexists _, _. split; [reflexivity|].
      simpl. replace (_prod []) with 1 by done. repeat split. lia.
Qed.

Lemma getitem_int_vs_sequence_witness :
  getitem 1 h456 (Sequence ListSeq [IInt 2]) w1 =
  getitem 1 h456 (Single (IInt 2)) w1.
Proof.
  refine (proj1 (getitem_int_vs_sequence h456 2 ListSeq 0%nat w1) _).
  discriminate.
Defined.

(** X4.  A sequence of [n <= ndim] integers returns, whatever the values,
    the view of shape [shape[n:]] whose offset is the row-major linear
    index of the integers in [shape[:n]] times [product(shape[n:])]; with
    [n = ndim] it is a one-element view of shape [()] at the row-major
    index of the element. *)
Theorem getitem_ints_row_major `{B : Backend} (self : CUDArray)
    (k : seq_kind) (idxs : list Z) (depth : nat) (w : world) :
  (length idxs <= ndim self)%nat ->
  exists v w',
    getitem (S depth) self (Sequence k (map IInt idxs)) w = (Ok v, w') /\
    shape v = drop (length idxs) (shape self) /\
    ad_owner (_data v) = Some (_data self) /\
    ad_size (_data v) = _prod (drop (length idxs) (shape self)) /\
    ad_offset (_data v) =
      ravel (take (length idxs) (shape self)) idxs *
      _prod (drop (length idxs) (shape self)) /\
    (length idxs = ndim self ->
     shape v = [] /\ ad_size (_data v) = 1 /\
     ad_offset (_data v) = ravel (shape self) idxs).
Proof.
  intros Hl. rewrite getitem_ints_eq, make_view_eq by done.
  eexists _, _. split; [reflexivity|]. simpl. repeat split.
  - unfold ndim in H. by rewrite H, drop_all.
  - unfold ndim in H. rewrite H, drop_all. done.
  - unfold ndim in H. rewrite H, drop_all, firstn_all.
    replace (_prod []) with 1 by done. lia.
Qed.

Lemma getitem_ints_row_major_witness :
  exists v w',
    getitem 1 h456 (Sequence TupleSeq (map IInt [3; 4; 5])) w1 = (Ok v, w') /\
    shape v = [] /\ ad_owner (_data v) = Some (_data h456) /\
    ad_size (_data v) = 1 /\ ad_offset (_data v) = 119.
Proof.
  destruct (getitem_ints_row_major h456 TupleSeq [3; 4; 5] 0%nat w1)
    as (v & w' & Hg & Hs & Ho & Hz & Hoff & _).
  - unfold ndim. simpl. lia.
  - exists v, w'. repeat split; assumption.
Defined.

(* ===================================================================== *)
(** ** Indexing a view of a view *)
(* ===================================================================== *)

Lemma loop_tail_add_offset (d : Z) (a : bool) (start stop : Z)
    (st : loop_state) (c : Z) :
  loop_tail d a start stop (add_offset c st) =
  match loop_tail d a start stop st with
  | Continue st' => Continue (add_offset (c * d) st')
  | other => other
  end.
Proof.
  unfold loop_tail, add_offset. simpl.
  destruct (rest_must_be_contiguous st && (1 <? stop - start)
            && (stop - start <? d)); [done|].
  simpl. f_equal. f_equal. lia.
Qed.

Lemma loop_body_behind_head (nd nd' : nat) (k : seq_kind) (x : index)
    (l : list index) (i : nat) (d : Z) (st : loop_state) (c : Z) :
  match loop_body nd' k l i d st with
  | Continue st' =>
      loop_body nd k (x :: l) (S i) d (add_offset c st) =
      Continue (add_offset (c * d) st')
  | Throw e => loop_body nd k (x :: l) (S i) d (add_offset c st) = Throw e
  | Restart _ =>
      exists l'', loop_body nd k (x :: l) (S i) d (add_offset c st) = Restart l''
  end.
Proof.
  unfold loop_body. change ((x :: l) !! S i) with (l !! i).
  destruct (l !! i) as [[n|s e [stp|]| |]|]; try done.
  - rewrite loop_tail_add_offset.
    destruct (loop_tail d false n (n + 1) st); eauto.
  - rewrite loop_tail_add_offset.
    destruct (loop_tail d true _ _ st); eauto.
  - destruct k; [done|eauto].
  - rewrite loop_tail_add_offset.
    destruct (loop_tail d true 0 d st); eauto.
Qed.

(** The walk of [x :: l] from dimension 1 on runs like the walk of [l]
    from dimension 0 on, with the running offset carried along. *)
Lemma walk_behind_head (nd nd' : nat) (k : seq_kind) (x : index)
    (l : list index) (dims : list Z) :
  forall (i : nat) (st : loop_state) (c : Z),
  match walk nd' k l i dims st with
  | Continue st' =>
      walk nd k (x :: l) (S i) dims (add_offset c st) =
      Continue (add_offset (c * _prod dims) st')
  | Throw e => walk nd k (x :: l) (S i) dims (add_offset c st) = Throw e
  | Restart _ =>
      exists l'', walk nd k (x :: l) (S i) dims (add_offset c st) = Restart l''
  end.
Proof.
  induction dims as [|d dims IH]; intros i st c.
  - simpl. replace (_prod []) with 1 by done. by rewrite Z.mul_1_r.
  - simpl.
    pose proof (loop_body_behind_head nd nd' k x l i d st c) as Hb.
    destruct (loop_body nd' k l i d st) as [st'|e|l'].
    + rewrite Hb. specialize (IH (S i) st' (c * d)).
      destruct (walk nd' k l (S i) dims st'); try done.
      rewrite IH, _prod_cons. f_equal. f_equal. lia.
    + by rewrite Hb.
    + destruct Hb as [l'' ->]. eauto.
Qed.

(** X5.  Indexing composes.  For a handle with at least one dimension,
    whenever [handle[i][l]] returns a view, so does [handle[(i,) + l]];
    the two views have the same shape, size and dtype, and the offset of
    the second is the sum of the offsets along the owner chain of the
    first ([handle[i]] inside [handle], then the view inside
    [handle[i]]). *)
Theorem getitem_chain `{B : Backend} (self : CUDArray) (i : Z)
    (k : seq_kind) (l : list index) (depth : nat)
    (w w1 w2 : world) (v1 v2 : CUDArray) :
  shape self <> [] ->
  getitem (S depth) self (Single (IInt i)) w = (Ok v1, w1) ->
  getitem (S depth) v1 (Sequence k l) w1 = (Ok v2, w2) ->
  exists v12 w12,
    getitem (S depth) self (Sequence k (IInt i :: l)) w = (Ok v12, w12) /\
    shape v12 = shape v2 /\
    ad_size (_data v12) = ad_size (_data v2) /\
    dtype_of v12 = dtype_of v2 /\
    ad_owner (_data v12) = Some (_data self) /\
    ad_owner (_data v2) = Some (_data v1) /\
    ad_owner (_data v1) = Some (_data self) /\
    ad_offset (_data v12) = ad_offset (_data v1) + ad_offset (_data v2).
Proof.
  intros Hne H1 H2.
  destruct (shape self) as [|d0 rest] eqn:Hs; [done|].
  rewrite getitem_int_eq, Hs in H1. simpl in H1. injection H1 as <- <-.
  apply getitem_accepted in H2 as (Hl & Hc & -> & _).
  unfold ndim in *. simpl in *.
  pose proof (walk_clean (length rest) k l rest Hc) as Hw.
  pose proof (walk_behind_head (length (d0 :: rest)) (length rest) k (IInt i)
                l rest 0 (mk_loop_state [] false 0) i) as Hshift.
  rewrite Hw in Hshift.
  unfold ndim. rewrite Hs. simpl.
  unfold loop_body, loop_tail. simpl.
  replace (i + 1 - i) with 1 by lia. simpl.
  unfold add_offset in Hshift. simpl in Hshift.
  replace (0 * d0 + i) with (0 + i) by lia.
  rewrite Hshift. simpl.
  destruct (Nat.ltb_spec (S (length rest)) (S (length l))); [lia|].
  rewrite make_view_eq. eexists _, _. split; [reflexivity|].
  simpl. repeat split. lia.
Qed.

Lemma getitem_chain_witness :
  exists v12 w12,
    getitem 1 h456 (Sequence TupleSeq [IInt 2; sl 1 3]) w1 = (Ok v12, w12) /\
    shape v12 = [2; 6] /\ ad_offset (_data v12) = 60 + 6.
Proof.
  destruct (getitem_chain h456 2 TupleSeq [sl 1 3] 0%nat w1
              (view_world h456 [5; 6] 60 w1)
              (view_world (view_handle h456 [5; 6] 60 w1) [2; 6] 6
                 (view_world h456 [5; 6] 60 w1))
              (view_handle h456 [5; 6] 60 w1)
              (view_handle (view_handle h456 [5; 6] 60 w1) [2; 6] 6
                 (view_world h456 [5; 6] 60 w1)))
    as (v12 & w12 & Hg & Hs & _ & _ & _ & _ & _ & Ho).
  - discriminate.
  - reflexivity.
  - reflexivity.
  - exists v12, w12. split; [exact Hg|]. split; [exact Hs|exact Ho].
Defined.

(* ===================================================================== *)
(** ** Rank of the result *)
(* ===================================================================== *)

Lemma spec_shape_rank (shp : list Z) (l : list index) (j : nat) :
  (length (spec_shape shp l j) + count_ints (take j l))%nat = j.
Proof.
  induction j as [|j IH]; [done|].
  rewrite spec_shape_S, length_app.
  destruct (l !! j) as [x|] eqn:E.
  - rewrite (take_S_r _ _ _ E). unfold count_ints in *.
    rewrite List.filter_app, length_app. simpl.
    destruct x; simpl; lia.
  - apply lookup_ge_None_1 in E.
    rewrite !take_ge in * by lia. simpl. lia.
Qed.

(** X6.  A view the general path returns has one dimension less than the
    indexed handle for every integer in the index sequence, and no other
    element changes the rank. *)
Theorem getitem_rank `{B : Backend} (self : CUDArray) (k : seq_kind)
    (l : list index) (depth : nat) (w w' : world) (v : CUDArray) :
  getitem depth self (Sequence k l) w = (Ok v, w') ->
  (ndim v + count_ints l)%nat = ndim self.
Proof.
  intros (Hl & _ & -> & _)%getitem_accepted.
  pose proof (spec_shape_rank (shape self) l (ndim self)) as H.
  rewrite take_ge in H by done. done.
Qed.

Lemma getitem_rank_witness :
  Nat.add (ndim (view_handle h456 [2; 6] 42 w1))
          (count_ints [IInt 1; sl 2 4])
  = ndim h456.
Proof.
  exact (getitem_rank h456 TupleSeq [IInt 1; sl 2 4] 1 w1
           (view_world h456 [2; 6] 42 w1)
           (view_handle h456 [2; 6] 42 w1) eq_refl).
Defined.

(* ===================================================================== *)
(** ** Sequences without an ellipsis *)
(* ===================================================================== *)

Section NoEllipsis.
Variable l : list index.
Hypothesis no_ellipsis : ~ In IEllipsis l.

Lemma lookup_not_ellipsis (i : nat) : l !! i <> Some IEllipsis.
Proof.
  intros E. apply no_ellipsis, list_elem_of_In. by eapply list_elem_of_lookup_2.
Qed.

(** Without an ellipsis the loop body looks at nothing but the element
    of its dimension: trailing full-range slices, the kind of the
    sequence and [ndim] make no difference. *)
Lemma loop_body_no_ellipsis (nd nd' : nat) (k k' : seq_kind) (m i : nat)
    (d : Z) (st : loop_state) :
  loop_body nd k (l ++ replicate m full_slice) i d st =
  loop_body nd' k' l i d st.
Proof.
  unfold loop_body.
  destruct (Nat.lt_ge_cases i (length l)) as [Hi|Hi].
  - rewrite lookup_app_l by done.
    pose proof (lookup_not_ellipsis i) as Hne.
    by destruct (l !! i) as [[n|s e [stp|]| |]|].
  - rewrite lookup_app_r, (lookup_ge_None_2 l i) by done.
    destruct (replicate m full_slice !! (i - length l)%nat) as [x|] eqn:E;
      [|done].
    apply lookup_replicate in E as [-> _]. done.
Qed.

Lemma walk_no_ellipsis (nd nd' : nat) (k k' : seq_kind) (m : nat)
    (dims : list Z) : forall (i : nat) (st : loop_state),
  walk nd k (l ++ replicate m full_slice) i dims st =
  walk nd' k' l i dims st.
Proof.
  induction dims as [|d dims IH]; intros i st; [done|]. simpl.
  rewrite (loop_body_no_ellipsis nd nd' k k').
  destruct (loop_body nd' k' l i d st); try done.
Qed.

End NoEllipsis.

(** X7.  In a sequence without an ellipsis, full-range slices at the end
    are redundant and the kind of the sequence is immaterial: as long as
    the padded sequence has at most [ndim] elements, [handle[l + (:,)*m]]
    given as a tuple or as a list does exactly what [handle[l]] does
    (same result or same exception, same calls). *)
Theorem getitem_trailing_full_slices `{B : Backend} (self : CUDArray)
    (k k' : seq_kind) (l : list index) (m depth : nat) (w : world) :
  ~ In IEllipsis l ->
  (length l + m <= ndim self)%nat ->
  getitem depth self (Sequence k (l ++ replicate m full_slice)) w =
  getitem depth self (Sequence k' l) w.
Proof.
  intros Hne Hl. destruct depth as [|d]; [done|]. unfold ndim in *. simpl.
  rewrite length_app, length_replicate.
  destruct (Nat.ltb_spec (length (shape self)) (length l + m)); [lia|].
  destruct (Nat.ltb_spec (length (shape self)) (length l)); [lia|].
  rewrite (walk_no_ellipsis l Hne _ (ndim self) k k').
  by destruct (walk _ _ _ _ _ _).
Qed.

Lemma getitem_trailing_full_slices_witness :
  getitem 1 h456 (Sequence ListSeq ([sl 1 3] ++ replicate 2 full_slice)) w1 =
  getitem 1 h456 (Sequence TupleSeq [sl 1 3]) w1.
Proof.
  refine (getitem_trailing_full_slices h456 ListSeq TupleSeq [sl 1 3] 2 1 w1
            _ _).
  - simpl. intros [H|[]]. discriminate.
  - unfold ndim. simpl. lia.
Defined.

(* ===================================================================== *)
(** ** The whole array as a view *)
(* ===================================================================== *)

(** X8.  Indexing with the empty sequence, or with up to [ndim]
    full-range slices, returns a view of the whole array: same shape,
    offset 0, as many elements as the handle.  Unlike [view()], which
    hands out the handle's own buffer object, it constructs a new buffer
    object owned by the handle's, one step further down the owner
    chain. *)
Theorem getitem_full_vs_view `{B : Backend} (self : CUDArray)
    (k : seq_kind) (m depth : nat) (w : world) :
  (m <= ndim self)%nat ->
  exists v w' u,
    getitem (S depth) self (Sequence k (replicate m full_slice)) w
      = (Ok v, w') /\
    view self w = (Ok u, w) /\
    shape v = shape self /\ shape u = shape self /\
    ad_size (_data v) = size self /\
    ad_offset (_data v) = 0 /\
    ad_owner (_data v) = Some (_data self) /\
    ad_depth (_data v) = S (ad_depth (_data self)) /\
    _data u = _data self /\
    _data v <> _data u /\
    objs w' = S (objs w).
Proof.
  intros Hm. unfold ndim in Hm. rewrite view_eq. simpl.
  rewrite length_replicate.
  destruct (Nat.ltb_spec (length (shape self)) m); [lia|].
  change (replicate m full_slice) with ([] ++ replicate m full_slice).
  rewrite (walk_no_ellipsis [] (fun H => H) _ (ndim self) k k).
  rewrite walk_no_index by (simpl; lia). simpl.
  rewrite make_view_eq.
  eexists _, _, _. split; [reflexivity|]. split; [reflexivity|].
  simpl. repeat split; try done.
  intros E. apply (f_equal ad_depth) in E. simpl in E. lia.
Qed.

Lemma getitem_full_vs_view_witness :
  exists v w' u,
    getitem 1 h456 (Sequence TupleSeq (replicate 0 full_slice)) w1
      = (Ok v, w') /\
    view h456 w1 = (Ok u, w1) /\
    shape v = shape h456 /\ shape u = shape h456 /\
    ad_size (_data v) = size h456 /\
    ad_offset (_data v) = 0 /\
    ad_owner (_data v) = Some (_data h456) /\
    ad_depth (_data v) = S (ad_depth (_data h456)) /\
    _data u = _data h456 /\
    _data v <> _data u /\
    objs w' = S (objs w1).
Proof.
  refine (getitem_full_vs_view h456 TupleSeq 0 0 w1 _).
  unfold ndim. simpl. lia.
Defined.

(* ===================================================================== *)
(** ** Invariants of the handles the class produces *)
(* ===================================================================== *)

Lemma normalize_dtype_not_bool `{B : Backend} (d : dtype) :
  float_ <> Bool -> int_ <> Bool -> bool_ <> Bool ->
  fst (normalize_dtype d) <> Bool.
Proof.
  intros Hf Hi Hb. unfold normalize_dtype. by repeat case_decide.
Qed.

(** X9.  [base.float_], [base.int_] and [base.bool_] not being [bool]:
    every handle the class produces (constructed without a
    caller-supplied buffer, then any chain of [view()] and
    [__getitem__]) holds a buffer object of exactly [size] elements, is
    not marked transposed and never stores the [bool] dtype; and only a
    handle that owns its buffer can have [isbool] set, in which case it
    stores [base.bool_]. *)
Theorem built_invariant `{B : Backend} (h : CUDArray) :
  float_ <> Bool -> int_ <> Bool -> bool_ <> Bool ->
  built h ->
  ad_size (_data h) = size h /\
  transposed h = false /\
  dtype_of h <> Bool /\
  (isbool h = true -> dtype_of h = bool_ /\ ad_owner (_data h) = None).
Proof.
  intros Hcf Hci Hcb.
  induction 1 as [shp dt np w w' h Hi
                 |self h w w' Hb IH Hv
                 |self h depth idx w w' Hb IH Hg].
  - destruct (CUDArray_init_fresh shp dt np w)
      as (h0 & w0' & Hi0 & Hs & Hd & Hf & Ho & Hz).
    rewrite Hi0 in Hi. injection Hi as <- <-.
    split; [|split; [|split]].
    + unfold size. by rewrite Hz, Hs.
    + unfold CUDArray_init in Hi0.
      destruct (normalize_dtype (infer_dtype dt np)).
      simpl in Hi0. unfold bind, ArrayData_new, ret in Hi0.
      by injection Hi0 as <- _.
    + rewrite Hd. by apply normalize_dtype_not_bool.
    + intros Hb. split; [|done]. rewrite Hd. rewrite Hf in Hb.
      unfold normalize_dtype in *. by repeat case_decide.
  - destruct IH as (Hz & Ht & Hnb & _).
    rewrite view_eq in Hv. injection Hv as <- <-.
    split; [done|]. split; [done|]. split; [done|]. simpl.
    rewrite normalize_dtype_flag. by intros Hd%bool_decide_eq_true.
  - destruct IH as (_ & _ & Hnb & _).
    apply getitem_ok_view in Hg as (vs & off & -> & _).
    split; [done|]. split; [done|]. split; [done|]. simpl.
    rewrite normalize_dtype_flag. by intros Hd%bool_decide_eq_true.
Qed.

Lemma built_invariant_witness :
  ad_size (_data hbool) = size hbool /\
  transposed hbool = false /\
  dtype_of hbool <> Bool /\
  (isbool hbool = true ->
   dtype_of hbool = bool_ /\ ad_owner (_data hbool) = None).
Proof.
  refine (built_invariant hbool _ _ _ _); try discriminate.
  refine (built_fresh (ShapeInt 3) None
            (Some (mk_ndarray Bool [3] [1; 0; 1])) w0
            (mk_world [(0%nat, [1; 0; 1])] 1
               [EvArrayData (mk_ArrayData 0 3 Int32 None 0)
                  (Some (mk_ndarray Int32 [3] [1; 0; 1]))]) hbool _).
  reflexivity.
Defined.

(* ===================================================================== *)
(** ** What the constructor does to the device *)
(* ===================================================================== *)

(** X10.  Without a supplied buffer the constructor issues exactly one
    call, the allocation of a buffer of [product(shape)] elements of the
    normalised dtype, numbered after the objects that exist, to which the
    host data (if any) is handed over coerced to that dtype.  With a
    supplied buffer it issues no call at all: the handle holds that very
    buffer and reports the buffer's dtype whatever [dtype] was passed,
    host data passed along is not transferred, and the buffer's size is
    not compared with the shape. *)
Theorem construction_calls `{B : Backend} :
  (forall (shp : shape_arg) (dt : option dtype)
          (np_data : option (ndarray elem)) (w : world),
     exists h w',
       CUDArray_init shp dt np_data None w = (Ok h, w') /\
       _data h = mk_ArrayData (objs w) (_prod (_require_iterable shp))
                   (fst (normalize_dtype (infer_dtype dt np_data))) None 0 /\
       log w' = log w ++
         [EvArrayData (_data h)
            (option_map (fun a => np_require a (dtype_of h)) np_data)] /\
       forallb is_alloc
         [EvArrayData (_data h)
            (option_map (fun a => np_require a (dtype_of h)) np_data)] = true /\
       objs w' = S (objs w)) /\
  (forall (shp : shape_arg) (dt : option dtype)
          (np_data : option (ndarray elem)) (ad : ArrayData) (w : world),
     exists h,
       CUDArray_init shp dt np_data (Some ad) w = (Ok h, w) /\
       CUDArray_init shp dt np_data (Some ad) w =
         CUDArray_init shp (Some (infer_dtype dt np_data)) None (Some ad) w /\
       _data h = ad /\
       dtype_of h = ad_dtype ad /\
       shape h = _require_iterable shp /\
       isbool h = snd (normalize_dtype (infer_dtype dt np_data))).
Proof.
  split.
  - intros shp dt np_data w. unfold CUDArray_init.
    destruct (normalize_dtype (infer_dtype dt np_data)) as [d flag].
    eexists _, _. split; [reflexivity|]. done.
  - intros shp dt np_data ad w. unfold CUDArray_init. simpl.
    destruct (normalize_dtype (infer_dtype dt np_data)) as [d flag].
    eexists. split; [reflexivity|]. done.
Qed.

(** X11.  Round trip through the device.  If the buffer gives back the
    items that were uploaded to it, then building a handle from host
    data and materialising it returns an array of the handle's shape
    whose items are the host items converted to the normalised dtype
    (and, for boolean host data, converted back to [bool]); its dtype is
    the normalised dtype, or [bool] for boolean host data. *)
Theorem construct_then_materialise `{B : Backend} (shp : shape_arg)
    (a : ndarray elem) (w : world) :
  dev_to_numpy
    (mk_ArrayData (objs w) (_prod (_require_iterable shp))
       (fst (normalize_dtype (nd_dtype a))) None 0)
    (_require_iterable shp)
    (dev_construct
       (mk_ArrayData (objs w) (_prod (_require_iterable shp))
          (fst (normalize_dtype (nd_dtype a))) None 0)
       (Some (np_require a (fst (normalize_dtype (nd_dtype a))))) (dev w))
  = nd_items (np_require a (fst (normalize_dtype (nd_dtype a)))) ->
  exists h w1 out w2,
    CUDArray_init shp None (Some a) None w = (Ok h, w1) /\
    __array__ h w1 = (Ok out, w2) /\
    nd_shape out = _require_iterable shp /\
    (nd_dtype a <> Bool ->
     nd_dtype out = fst (normalize_dtype (nd_dtype a)) /\
     nd_items out =
       map (cast (nd_dtype a) (fst (normalize_dtype (nd_dtype a))))
           (nd_items a)) /\
    (nd_dtype a = Bool ->
     nd_dtype out = Bool /\
     nd_items out =
       map (cast bool_ Bool) (map (cast Bool bool_) (nd_items a))).
Proof.
  intros Hdev. unfold CUDArray_init. simpl.
  destruct (normalize_dtype (nd_dtype a)) as [d flag] eqn:En.
  simpl in Hdev.
  eexists _, _, _, _. split; [reflexivity|].
  rewrite array_eq. split; [reflexivity|]. simpl.
  unfold dtype_of. simpl. rewrite Hdev.
  assert (Hflag : flag = bool_decide (nd_dtype a = Bool)).
  { pose proof (normalize_dtype_flag (nd_dtype a)) as H. by rewrite En in H. }
  split; [by destruct flag|]. split.
  - intros Hne. rewrite Hflag, bool_decide_eq_false_2 by done. done.
  - intros He. rewrite Hflag, bool_decide_eq_true_2 by done. simpl.
    assert (d = bool_) as ->.
    { rewrite He in En. unfold normalize_dtype in En. simpl in En.
      by injection En as <- _. }
    by rewrite He.
Qed.

Lemma construct_then_materialise_witness :
  exists h w2 out w3,
    CUDArray_init (ShapeInt 3) None (Some (mk_ndarray Bool [3] [1; 0; 1]))
      None w0 = (Ok h, w2) /\
    __array__ h w2 = (Ok out, w3) /\
    nd_shape out = [3] /\ nd_dtype out = Bool /\ nd_items out = [1; 0; 1].
Proof.
  destruct (construct_then_materialise (B := ref_backend) (ShapeInt 3)
              (mk_ndarray Bool [3] [1; 0; 1]) w0 eq_refl)
    as (h & w2 & out & w3 & Hi & Ha & Hs & _ & Hb).
  destruct (Hb eq_refl) as [Hd Hit].
  exists h, w2, out, w3. repeat split; assumption.
Defined.
